(** * Failover agent for Docker: a shallow embedding

    The agent runs on two peer servers.  One holds the PRIMARY role and
    runs the containers, the other holds BACKUP and watches heartbeats.
    This file embeds [config.py], [monitor.py] and [main.py] as functions
    over an explicit world state and proves properties of the health
    verification, of the role transitions and of the heartbeat check.

    Modelling choices.
    - Time stamps ([time.time()], a Python float counting seconds) are
      integers counting milliseconds; configuration values stay in
      seconds as in [config.py] and are converted by [seconds].
    - The container engine and the peer are an oracle [Env]: the k-th
      external call of a run is answered by the oracle at index k, so two
      calls for the same container can be answered differently.
    - Every external call and every sleep is appended to a trace.
    - Python exceptions are values of [result]; every function of the
      agent catches them, as the source does. *)

From Stdlib Require Import ZArith List Bool Lia.
From stdpp Require Import base option strings gmap.

Open Scope Z_scope.

(** ** config.py *)

Record ServerConfig := {
  name : string;
  containers : list string;
  endpoint : string;
  port : Z
}.

Record GeneralConfig := {
  heartbeat_interval : Z;
  check_heartbeat_interval : Z;
  heartbeat_timeout : Z;
  startup_grace_period : Z;
  restart_grace_period : Z
}.

Definition GENERAL_CONFIG : GeneralConfig := {|
  heartbeat_interval := 5;
  check_heartbeat_interval := 5;
  heartbeat_timeout := 20;
  startup_grace_period := 20;
  restart_grace_period := 30
|}.

Definition SERVER1_CONFIG : ServerConfig := {|
  name := "server1";
  containers := ["container-1"; "container-2"]%string;
  endpoint := "http://172.17.92.9:8000";
  port := 8000
|}.

Definition SERVER2_CONFIG : ServerConfig := {|
  name := "server2";
  containers := ["container-1"; "container-2"]%string;
  endpoint := "http://172.17.92.20:8000";
  port := 8000
|}.

(** ** The world: agent state, clock and environment *)

Inductive ServerRole := PRIMARY | BACKUP.

Definition ServerRole_eqb (a b : ServerRole) : bool :=
  match a, b with
  | PRIMARY, PRIMARY | BACKUP, BACKUP => true
  | _, _ => false
  end.

(** Exceptions the agent distinguishes: [docker.errors.NotFound] and any
    other [Exception]. *)
Inductive Exn := NotFound | OtherError.

Inductive result (A : Type) :=
| Ok (a : A)
| Raise (e : Exn).
Arguments Ok {A} a.
Arguments Raise {A} e.

(** Effects visible outside the process. *)
Inductive Event :=
| DockerGet (container_name : string)
| DockerStart (container_name : string)
| DockerStop (container_name : string)
| HttpPost (path : string)
| Sleep (secs : Z)
| LockAcquire
| LockRelease.

(** The environment answers the k-th external call.  [docker_get] gives
    the [status] attribute of the container found. *)
Record Env := {
  docker_get : nat -> string -> result string;
  docker_start : nat -> string -> result unit;
  docker_stop : nat -> string -> result unit;
  http_post : nat -> string -> result Z;
  latency : nat -> N
}.

(** Fields of [ContainerMonitor] and [HeartbeatMonitor] that change, the
    clock, the number of external calls made, and the trace. *)
Record World := mkWorld {
  role : ServerRole;
  container_start_time : Z;
  container_down_times : gmap string Z;
  last_heartbeat : Z;
  now : Z;
  tick : nat;
  trace : list Event
}.

Definition set_role (r : ServerRole) (w : World) : World :=
  mkWorld r (container_start_time w) (container_down_times w)
          (last_heartbeat w) (now w) (tick w) (trace w).

Definition set_container_start_time (t : Z) (w : World) : World :=
  mkWorld (role w) t (container_down_times w)
          (last_heartbeat w) (now w) (tick w) (trace w).

Definition set_container_down_times (m : gmap string Z) (w : World) : World :=
  mkWorld (role w) (container_start_time w) m
          (last_heartbeat w) (now w) (tick w) (trace w).

Definition set_last_heartbeat (t : Z) (w : World) : World :=
  mkWorld (role w) (container_start_time w) (container_down_times w)
          t (now w) (tick w) (trace w).

(** The state of a freshly constructed agent ([__init__] of both classes)
    at clock reading [t0]. *)
Definition initial_world (initial_role : ServerRole) (t0 : Z) : World :=
  mkWorld initial_role 0 ∅ 0 t0 0%nat [].

Definition seconds (s : Z) : Z := 1000 * s.

(** ** A state monad over the world *)

Definition M (A : Type) : Type := World -> A * World.

Definition ret {A} (a : A) : M A := fun w => (a, w).

Definition bind {A B} (m : M A) (f : A -> M B) : M B :=
  fun w => let p := m w in f (fst p) (snd p).

Notation "'do' x <- m ; k" := (bind m (fun x => k))
  (at level 10, x name, m at level 100, k at level 200).
Notation "'do_' m ; k" := (bind m (fun _ => k))
  (at level 10, m at level 100, k at level 200).

Definition gets {A} (f : World -> A) : M A := fun w => (f w, w).
Definition modify (f : World -> World) : M unit := fun w => (tt, f w).

Section Agent.

Variable env : Env.
Variable server_configs : GeneralConfig.
Variable config : ServerConfig.

(** An external call: answered by the oracle at the current index, takes
    the oracle's latency, and is recorded. *)
Definition external {A} (ev : Event) (answer : nat -> A) : M A :=
  fun w =>
    (answer (tick w),
     mkWorld (role w) (container_start_time w) (container_down_times w)
             (last_heartbeat w)
             (now w + Z.of_N (latency env (tick w)))
             (S (tick w))
             (trace w ++ [ev])).

Definition time_time : M Z := gets now.

Definition time_sleep (secs : Z) : M unit :=
  fun w =>
    (tt,
     mkWorld (role w) (container_start_time w) (container_down_times w)
             (last_heartbeat w) (now w + seconds secs) (tick w)
             (trace w ++ [Sleep secs])).

Definition containers_get (container_name : string) : M (result string) :=
  external (DockerGet container_name)
           (fun k => docker_get env k container_name).

Definition container_start (container_name : string) : M (result unit) :=
  external (DockerStart container_name)
           (fun k => docker_start env k container_name).

Definition container_stop (container_name : string) : M (result unit) :=
  external (DockerStop container_name)
           (fun k => docker_stop env k container_name).

Definition requests_post (path : string) : M (result Z) :=
  external (HttpPost path) (fun k => http_post env k path).

Definition lock_acquire : M unit :=
  modify (fun w => mkWorld (role w) (container_start_time w)
                           (container_down_times w) (last_heartbeat w)
                           (now w) (tick w) (trace w ++ [LockAcquire])).

Definition lock_release : M unit :=
  modify (fun w => mkWorld (role w) (container_start_time w)
                           (container_down_times w) (last_heartbeat w)
                           (now w) (tick w) (trace w ++ [LockRelease])).

(** ** monitor.py: the down-time map

    [container_down_times] is a [defaultdict(float)]: reading a missing
    key stores 0.0 under it and returns it. *)

Definition down_times_contains (container_name : string) : M bool :=
  gets (fun w => bool_decide (is_Some (container_down_times w !! container_name))).

Definition down_times_getitem (container_name : string) : M Z :=
  fun w =>
    match container_down_times w !! container_name with
    | Some t => (t, w)
    | None =>
        (0, set_container_down_times
              (<[container_name := 0]> (container_down_times w)) w)
    end.

Definition down_times_setitem (container_name : string) (t : Z) : M unit :=
  modify (fun w => set_container_down_times
                     (<[container_name := t]> (container_down_times w)) w).

Definition down_times_delitem (container_name : string) : M unit :=
  modify (fun w => set_container_down_times
                     (delete container_name (container_down_times w)) w).

(** ** monitor.py: ContainerMonitor *)

Definition should_check_container (container_name : string) : M bool :=
  do t <- time_time;
  do start <- gets container_start_time;
  let time_since_start := t - start in
  if time_since_start <? seconds (startup_grace_period server_configs)
  then ret false
  else
    do r <- containers_get container_name;
    match r with
    | Ok _ => ret true
    | Raise NotFound => ret false
    | Raise OtherError => ret false
    end.

Definition get_container_status (container_name : string) : M bool :=
  do r <- containers_get container_name;
  match r with
  | Ok status =>
      let is_running := String.eqb status "running" in
      do_ (if is_running then
             do tracked <- down_times_contains container_name;
             if tracked then down_times_delitem container_name else ret tt
           else
             do tracked <- down_times_contains container_name;
             if negb tracked then
               do t <- time_time;
               down_times_setitem container_name t
             else ret tt);
      ret is_running
  | Raise NotFound => ret false
  | Raise OtherError => ret false
  end.

(** [wait_for_containers_startup]: the inner [for] with its [break]. *)
Fixpoint all_running (cs : list string) : M bool :=
  match cs with
  | [] => ret true
  | container_name :: rest =>
      do up <- get_container_status container_name;
      if negb up then ret false else all_running rest
  end.

(** The [while] of [wait_for_containers_startup].  [fuel] bounds the
    number of times the loop condition is evaluated; [None] means the
    bound was reached.  [wait_loop_fuel] shows the bound used below is
    never reached. *)
Fixpoint wait_loop (fuel : nat) (cs : list string) (start_time timeout : Z)
  : M (option bool) :=
  match fuel with
  | O => ret None
  | S fuel' =>
      do t <- time_time;
      if t - start_time <? seconds timeout then
        do all <- all_running cs;
        if all then ret (Some true)
        else
          do_ time_sleep 10;
          wait_loop fuel' cs start_time timeout
      else ret (Some false)
  end.

Definition wait_fuel (timeout : Z) : nat := S (S (Z.to_nat (timeout / 10))).

Definition wait_for_containers_startup (cs : list string) (timeout : Z)
  : M bool :=
  do start_time <- time_time;
  do r <- wait_loop (wait_fuel timeout) cs start_time timeout;
  ret (match r with Some b => b | None => false end).

(** Body of the [try] of [stop_all_containers]: the loop, stopped by the
    first exception. *)
Fixpoint stop_each (cs : list string) : M (result unit) :=
  match cs with
  | [] => ret (Ok tt)
  | container_name :: rest =>
      do r <- containers_get container_name;
      match r with
      | Ok _ =>
          do s <- container_stop container_name;
          match s with
          | Ok _ => stop_each rest
          | Raise e => ret (Raise e)
          end
      | Raise e => ret (Raise e)
      end
  end.

Definition stop_all_containers (cs : list string) : M bool :=
  do r <- stop_each cs;
  match r with
  | Ok _ => ret true
  | Raise _ => ret false
  end.

(** The loop of [start_all_containers], stopped by the first exception. *)
Fixpoint start_each (cs : list string) : M (result unit) :=
  match cs with
  | [] => ret (Ok tt)
  | container_name :: rest =>
      do r <- containers_get container_name;
      match r with
      | Ok _ =>
          do s <- container_start container_name;
          match s with
          | Ok _ => start_each rest
          | Raise e => ret (Raise e)
          end
      | Raise e => ret (Raise e)
      end
  end.

Definition start_all_containers (cs : list string) : M bool :=
  do r <- start_each cs;
  match r with
  | Ok _ =>
      do t <- time_time;
      do_ modify (set_container_start_time t);
      do started <- wait_for_containers_startup cs 300;
      if started then ret true else ret false
  | Raise _ => ret false
  end.

Definition notify_other_server : M bool :=
  do r <- requests_post "/become_primary";
  match r with
  | Ok status_code => ret (status_code =? 200)
  | Raise _ => ret false
  end.

Definition become_backup (cs : list string) : M unit :=
  do_ modify (set_role BACKUP);
  do stopped <- stop_all_containers cs;
  if stopped then ret tt else ret tt.

Definition become_primary (cs : list string) : M bool :=
  do_ modify (set_role PRIMARY);
  start_all_containers cs.

Definition consecutive_checks : Z := 3.
Definition check_interval : Z := 5.

(** The [for i in range(consecutive_checks)] of [verify_container_health];
    [true] when a poll found the container running (the early
    [return True]). *)
Fixpoint poll_loop (container_name : string) (range : list Z) : M bool :=
  match range with
  | [] => ret false
  | i :: rest =>
      do up <- get_container_status container_name;
      if up then ret true
      else
        do_ (if i <? consecutive_checks - 1
             then time_sleep check_interval else ret tt);
        poll_loop container_name rest
  end.

Definition range (n : Z) : list Z := map Z.of_nat (seq 0 (Z.to_nat n)).

Definition verify_container_health (container_name : string) : M bool :=
  do tracked <- down_times_contains container_name;
  do in_grace <-
    (if tracked then
       do t <- time_time;
       do down <- down_times_getitem container_name;
       let time_since_down := t - down in
       ret (time_since_down <? seconds (restart_grace_period server_configs))
     else ret false);
  if in_grace then ret true
  else
    do up <- poll_loop container_name (range consecutive_checks);
    if up then ret true
    else
      do t <- time_time;
      do down <- down_times_getitem container_name;
      let time_since_down := t - down in
      if seconds (restart_grace_period server_configs) <=? time_since_down
      then ret false
      else ret true.

(** The sequence run when a container failed its health check:
    [monitor_containers] lines 222-232; [main.py] runs the same sequence
    under the failover lock. *)
Definition stop_notify_become_backup (cs : list string) : M unit :=
  do stopped <- stop_all_containers cs;
  if stopped then
    do notified <- notify_other_server;
    if notified then become_backup cs else ret tt
  else ret tt.

Fixpoint for_each (cs : list string) (body : string -> M unit) : M unit :=
  match cs with
  | [] => ret tt
  | c :: rest => do_ body c; for_each rest body
  end.

(** One iteration of the [while True] of [monitor_containers]. *)
Definition monitor_containers_iteration (cs : list string) : M unit :=
  do r <- gets role;
  do in_grace <-
    (if ServerRole_eqb r PRIMARY then
       do t <- time_time;
       do start <- gets container_start_time;
       ret (t - start <? seconds (startup_grace_period server_configs))
     else ret false);
  if in_grace then time_sleep 30
  else
    do_ (if ServerRole_eqb r PRIMARY then
           for_each cs (fun container_name =>
             do healthy <- verify_container_health container_name;
             if negb healthy then stop_notify_become_backup cs else ret tt)
         else ret tt);
    time_sleep 50.

(** ** main.py: HeartbeatMonitor *)

Definition initiate_failover : M bool :=
  do_ lock_acquire;
  do r <- gets role;
  do result <-
    (if ServerRole_eqb r BACKUP then
       do ok <- become_primary (containers config);
       if ok then ret true else ret false
     else ret false);
  do_ lock_release;
  ret result.

(** One iteration of the [while] of [send_heartbeat]. *)
Definition send_heartbeat_iteration : M unit :=
  do r <- gets role;
  do_ (if ServerRole_eqb r PRIMARY then
         do _ <- requests_post "/heartbeat"; ret tt
       else ret tt);
  time_sleep (heartbeat_interval server_configs).

(** One iteration of the [while] of [check_heartbeat]. *)
Definition check_heartbeat_iteration : M unit :=
  do r <- gets role;
  do_ (if ServerRole_eqb r BACKUP then
         do current_time <- time_time;
         do last <- gets last_heartbeat;
         if 0 <? last then
           let time_since_last_heartbeat := current_time - last in
           if seconds (heartbeat_timeout server_configs)
              <? time_since_last_heartbeat
           then do _ <- initiate_failover; ret tt
           else ret tt
         else ret tt
       else ret tt);
  time_sleep (check_heartbeat_interval server_configs).

(** ** main.py: the two endpoints and the monitoring thread *)

(** [request.get("server")] followed by [if not server_name]. *)
Definition server_name_given (request : gmap string string) : bool :=
  match request !! "server"%string with
  | Some s => negb (String.eqb s "")
  | None => false
  end.

(** [POST /become_primary]; the value is the HTTP status of the reply. *)
Definition become_primary_endpoint (request : gmap string string) : M Z :=
  if negb (server_name_given request) then ret 400
  else
    do_ lock_acquire;
    do ok <- become_primary (containers config);
    do_ lock_release;
    if ok then ret 200 else ret 500.

(** [POST /heartbeat]. *)
Definition receive_heartbeat (request : gmap string string) : M Z :=
  if negb (server_name_given request) then ret 400
  else
    do t <- time_time;
    do_ modify (set_last_heartbeat t);
    ret 200.

(** Lines 152-162 of [monitor_containers_wrapper]. *)
Definition primary_failure_path : M unit :=
  do_ lock_acquire;
  do_ stop_notify_become_backup (containers config);
  lock_release.

(** Body of the [for] of [monitor_containers_wrapper]. *)
Definition check_container (container_name : string) : M unit :=
  do should <- should_check_container container_name;
  if negb should then ret tt
  else
    do up <- get_container_status container_name;
    if negb up then
      do healthy <- verify_container_health container_name;
      if negb healthy then primary_failure_path else ret tt
    else ret tt.

(** One iteration of the [while True] of [monitor_containers_wrapper]. *)
Definition monitor_containers_wrapper_iteration : M unit :=
  do r <- gets role;
  do_ (if ServerRole_eqb r PRIMARY
       then for_each (containers config) check_container
       else ret tt);
  time_sleep 10.

(** ** The loops, observed for a number of iterations *)

(** [k] iterations of a loop body: what a [while True] loop has done after
    [k] rounds. *)
Fixpoint iterate (k : nat) (body : M unit) : M unit :=
  match k with
  | O => ret tt
  | S k' => do_ body; iterate k' body
  end.

(** [monitor_containers]: the initial start on a PRIMARY, whose failure
    ends the function, then the loop, observed for [k] iterations. *)
Definition monitor_containers (cs : list string) (k : nat) : M unit :=
  do r <- gets role;
  do started <-
    (if ServerRole_eqb r PRIMARY then start_all_containers cs else ret true);
  if negb started then ret tt
  else iterate k (monitor_containers_iteration cs).

(** ** Definitions used in the statements and proofs *)

Definition is_running (r : result string) : bool :=
  match r with
  | Ok status => String.eqb status "running"
  | Raise _ => false
  end.

(** The down-time map after a poll answered [answer] at clock reading [t]
    that did not find the container running. *)
Definition record_down (n : string) (answer : result string) (t : Z)
  (m : gmap string Z) : gmap string Z :=
  match m !! n, answer with
  | None, Ok _ => <[n := t]> m
  | _, _ => m
  end.

(** Clock reading when the i-th poll returns, polls being 5 s apart. *)
Definition poll_time (w : World) (i : nat) : Z :=
  match i with
  | 0%nat => now w + Z.of_N (latency env (tick w))
  | 1%nat => now w + Z.of_N (latency env (tick w)) + seconds check_interval
             + Z.of_N (latency env (S (tick w)))
  | _ => now w + Z.of_N (latency env (tick w)) + seconds check_interval
         + Z.of_N (latency env (S (tick w))) + seconds check_interval
         + Z.of_N (latency env (S (S (tick w))))
  end.

(** The down-time map after three polls none of which found the container
    running. *)
Definition down_times_after_polls (n : string) (w : World) : gmap string Z :=
  record_down n (docker_get env (S (S (tick w))) n) (poll_time w 2)
    (record_down n (docker_get env (S (tick w)) n) (poll_time w 1)
       (record_down n (docker_get env (tick w) n) (poll_time w 0)
          (container_down_times w))).

Definition polls_trace (n : string) : list Event :=
  [DockerGet n; Sleep check_interval; DockerGet n; Sleep check_interval;
   DockerGet n].

Definition after_poll_down (n : string) (w : World) : World :=
  mkWorld (role w) (container_start_time w)
    (record_down n (docker_get env (tick w) n)
       (now w + Z.of_N (latency env (tick w))) (container_down_times w))
    (last_heartbeat w) (now w + Z.of_N (latency env (tick w)))
    (S (tick w)) (trace w ++ [DockerGet n]).

(** [verify_container_health] after its first test: the polls and the
    final comparison. *)
Definition verify_after_grace (n : string) (w : World) : bool * World :=
  let p := poll_loop n (range consecutive_checks) w in
  if fst p then (true, snd p)
  else
    let d := down_times_getitem n (snd p) in
    (negb (seconds (restart_grace_period server_configs)
           <=? now (snd p) - fst d), snd d).

Definition is_acquire (ev : Event) : bool :=
  match ev with LockAcquire => true | _ => false end.

(** Number of times the failover lock was taken. *)
Definition acquisitions (w : World) : nat :=
  length (List.filter is_acquire (trace w)).

(** [frame w w']: going from [w] to [w'] only polled or drove the
    container engine, called the peer or slept: role, start time and
    heartbeat stamp are the same, the clock did not go back, the trace
    grew and the lock was not taken. *)
Record frame (w w' : World) : Prop := {
  fr_role : role w' = role w;
  fr_start : container_start_time w' = container_start_time w;
  fr_heartbeat : last_heartbeat w' = last_heartbeat w;
  fr_now : now w <= now w';
  fr_acquisitions : acquisitions w' = acquisitions w;
  fr_trace : exists evs, trace w' = trace w ++ evs
}.

(** [steady w w']: as [frame], but the role may have changed and the lock
    may have been taken. *)
Record steady (w w' : World) : Prop := {
  st_start : container_start_time w' = container_start_time w;
  st_heartbeat : last_heartbeat w' = last_heartbeat w;
  st_now : now w <= now w';
  st_trace : exists evs, trace w' = trace w ++ evs
}.

(** A computation keeps a relation when its final world is related to
    its initial world, from every initial world. *)
Definition keeps (R : World -> World -> Prop) {A} (m : M A) : Prop :=
  forall w, R w (snd (m w)).

(** The world in which [start_all_containers] begins to wait: the start
    calls were made and [container_start_time] holds the clock reading. *)
Definition started_world (cs : list string) (w : World) : World :=
  set_container_start_time (now (snd (start_each cs w))) (snd (start_each cs w)).

(** The condition under which the staleness loop fails over, in the words
    of the specification. *)
Definition heartbeat_stale (w : World) : Prop :=
  role w = BACKUP /\
  last_heartbeat w <> 0 /\
  seconds (heartbeat_timeout server_configs) < now w - last_heartbeat w.

Definition in_startup_grace (w : World) : Prop :=
  now w - container_start_time w
  < seconds (startup_grace_period server_configs).

(** The world at the start of the next round of the wait: one pass over
    the containers that ended with one not running, then 10 s of sleep. *)
Definition next_round (cs : list string) (w : World) : World :=
  snd (time_sleep 10 (snd (all_running cs w))).




(** The check of one container confirms its failure: it passes
    [should_check_container], is found not running, and
    [verify_container_health] returns [False]. *)
Definition confirmed_down (n : string) (w : World) : bool :=
  let s := should_check_container n w in
  let g := get_container_status n (snd s) in
  let v := verify_container_health n (snd g) in
  fst s && negb (fst g) && negb (fst v).

(** Number of containers of the list whose failure a cycle confirms, each
    checked in the world its predecessors left. *)
Fixpoint confirmed_count (cs : list string) (w : World) : nat :=
  match cs with
  | [] => 0%nat
  | c :: rest =>
      ((if confirmed_down c w then 1 else 0)
       + confirmed_count rest (snd (check_container c w)))%nat
  end.

(** The events of stopping every container of a list, in order. *)
Definition stop_events (cs : list string) : list Event :=
  flat_map (fun c => [DockerGet c; DockerStop c]) cs.

Definition is_lock_event (ev : Event) : bool :=
  match ev with
  | LockAcquire | LockRelease => true
  | _ => false
  end.

(** The lock events of the trace, in order. *)
Definition lock_events (w : World) : list Event :=
  List.filter is_lock_event (trace w).

(** Going from [w] to [w'] neither took nor released the lock. *)
Definition lockless (w w' : World) : Prop := lock_events w' = lock_events w.

(** No recorded down time lies in the future, and the clock is not before
    the epoch. *)
Definition stamps_past (w : World) : Prop :=
  0 <= now w /\
  forall n t, container_down_times w !! n = Some t -> t <= now w.

(** [tidy keys w w']: going from [w] to [w'] changed the down-time entry
    of no container outside [keys], and kept the recorded down times in
    the past. *)
Record tidy (keys : list string) (w w' : World) : Prop := {
  td_entries : forall n, ~ In n keys ->
               container_down_times w' !! n = container_down_times w !! n;
  td_past : stamps_past w -> stamps_past w'
}.

(** ** Concrete environments and worlds, for the instances at the end *)

Definition container_1 : string := "container-1".
Definition container_2 : string := "container-2".

(** A clock reading: 1.7e9 s after the epoch, in milliseconds. *)
Definition epoch : Z := 1700000000000.

(** Every container is found, with status "exited"; every stop and start
    call returns; the peer answers 200. *)
Definition env_exited : Env := {|
  docker_get := fun _ _ => Ok "exited"%string;
  docker_start := fun _ _ => Ok tt;
  docker_stop := fun _ _ => Ok tt;
  http_post := fun _ _ => Ok 200;
  latency := fun _ => 0%N
|}.

(** No container is found. *)
Definition env_not_found : Env := {|
  docker_get := fun _ _ => Raise NotFound;
  docker_start := fun _ _ => Raise NotFound;
  docker_stop := fun _ _ => Raise NotFound;
  http_post := fun _ _ => Ok 200;
  latency := fun _ => 0%N
|}.

(** The first lookup finds the container running, the later ones find it
    exited; each call takes 2 ms. *)
Definition env_up_then_down : Env := {|
  docker_get := fun k _ =>
    match k with O => Ok "running"%string | S _ => Ok "exited"%string end;
  docker_start := fun _ _ => Ok tt;
  docker_stop := fun _ _ => Ok tt;
  http_post := fun _ _ => Ok 200;
  latency := fun _ => 2%N
|}.

(** Every container is found running. *)
Definition env_running : Env := {|
  docker_get := fun _ _ => Ok "running"%string;
  docker_start := fun _ _ => Ok tt;
  docker_stop := fun _ _ => Ok tt;
  http_post := fun _ _ => Ok 200;
  latency := fun _ => 1%N
|}.


Definition fresh_primary : World := initial_world PRIMARY epoch.

(** [container-1] was seen down 10 s ago. *)
Definition world_down_10s : World :=
  mkWorld PRIMARY 0 {[ container_1 := epoch - 10000 ]} 0 epoch 0%nat [].

(** Both containers were seen down 60 s ago. *)
Definition world_both_down : World :=
  mkWorld PRIMARY 0
    (<[ container_2 := epoch - 60000 ]> {[ container_1 := epoch - 60000 ]})
    0 epoch 0%nat [].

(** A backup whose last heartbeat is 21 s old. *)
Definition world_stale_backup : World :=
  mkWorld BACKUP 0 ∅ (epoch - 21000) epoch 0%nat [].

(** ** Properties *)

(** What [get_container_status] returns and what it leaves in the world,
    by the answer of the container engine. *)
Lemma get_container_status_spec (n : string) (w : World) :
  let w' := snd (get_container_status n w) in
  fst (get_container_status n w) = is_running (docker_get env (tick w) n) /\
  role w' = role w /\
  container_start_time w' = container_start_time w /\
  last_heartbeat w' = last_heartbeat w /\
  now w' = now w + Z.of_N (latency env (tick w)) /\
  tick w' = S (tick w) /\
  trace w' = trace w ++ [DockerGet n] /\
  container_down_times w' =
    match docker_get env (tick w) n with
    | Ok status =>
        if String.eqb status "running"
        then delete n (container_down_times w)
        else match container_down_times w !! n with
             | Some _ => container_down_times w
             | None => <[n := now w']> (container_down_times w)
             end
    | Raise _ => container_down_times w
    end.
Proof.
  unfold get_container_status, containers_get, external, bind. simpl.
  destruct (docker_get env (tick w) n) as [status|[|]]; simpl;
    try (repeat split; reflexivity).
  destruct (String.eqb status "running"); simpl.
  - destruct (container_down_times w !! n) eqn:E; simpl;
      repeat split; try reflexivity.
    symmetry. apply delete_id. exact E.
  - destruct (container_down_times w !! n) eqn:E; simpl;
      repeat split; reflexivity.
Qed.

(** C7: round trip on the down-time map through [get_container_status].
    Observing a tracked container running removes its entry.  A later
    observation that finds it not running, made with the map as the first
    observation left it, creates an entry whose stamp is the clock reading
    of that later observation, whatever the old stamp was.  A further
    not-running observation keeps that stamp (the entry is created only by
    the first observation that finds the container stopped), and an
    observation that ends in an exception leaves the map as it is.
    In every world: the result is [True] exactly when the container is
    found with status "running"; the entry after the check is none when
    the container was found running, the old stamp when it was found not
    running and had one, the clock reading of the check when it was found
    not running and had none, and the old entry or none when the lookup
    raised.  So an entry appears only through a check that finds the
    container stopped, and is gone as soon as a check finds it running. *)
Theorem down_time_round_trip (n : string) (w : World) (t_old : Z) :
  container_down_times w !! n = Some t_old ->
  docker_get env (tick w) n = Ok "running"%string ->
  let w1 := snd (get_container_status n w) in
  fst (get_container_status n w) = true /\
  container_down_times w1 !! n = None /\
  (forall w2 status,
      container_down_times w2 = container_down_times w1 ->
      docker_get env (tick w2) n = Ok status ->
      String.eqb status "running" = false ->
      let w3 := snd (get_container_status n w2) in
      fst (get_container_status n w2) = false /\
      now w3 = now w2 + Z.of_N (latency env (tick w2)) /\
      container_down_times w3 !! n = Some (now w3) /\
      (forall w4 status',
          container_down_times w4 = container_down_times w3 ->
          docker_get env (tick w4) n = Ok status' ->
          String.eqb status' "running" = false ->
          container_down_times (snd (get_container_status n w4)) !! n
          = Some (now w3))) /\
  (forall w2 e,
      docker_get env (tick w2) n = Raise e ->
      fst (get_container_status n w2) = false /\
      container_down_times (snd (get_container_status n w2))
      = container_down_times w2) /\
  (forall v,
      fst (get_container_status n v)
      = is_running (docker_get env (tick v) n) /\
      container_down_times (snd (get_container_status n v)) !! n
      = match docker_get env (tick v) n with
        | Ok status =>
            if String.eqb status "running" then None
            else match container_down_times v !! n with
                 | Some t => Some t
                 | None => Some (now (snd (get_container_status n v)))
                 end
        | Raise _ => container_down_times v !! n
        end) /\
  (forall v,
      container_down_times v !! n = None ->
      is_Some (container_down_times (snd (get_container_status n v)) !! n) ->
      exists status,
        docker_get env (tick v) n = Ok status /\
        String.eqb status "running" = false) /\
  (forall v,
      is_running (docker_get env (tick v) n) = true ->
      container_down_times (snd (get_container_status n v)) !! n = None).
Proof.
  assert (Hgen : forall v,
      fst (get_container_status n v)
      = is_running (docker_get env (tick v) n) /\
      container_down_times (snd (get_container_status n v)) !! n
      = match docker_get env (tick v) n with
        | Ok status =>
            if String.eqb status "running" then None
            else match container_down_times v !! n with
                 | Some t => Some t
                 | None => Some (now (snd (get_container_status n v)))
                 end
        | Raise _ => container_down_times v !! n
        end).
  { intros v.
    destruct (get_container_status_spec n v)
      as (Hf & _ & _ & _ & _ & _ & _ & Hmap).
    cbv zeta in Hmap. split; [exact Hf|]. rewrite Hmap.
    destruct (docker_get env (tick v) n) as [status|e]; [|reflexivity].
    destruct (String.eqb status "running"); [apply lookup_delete_eq|].
    destruct (container_down_times v !! n) eqn:E;
      [exact E | apply lookup_insert_eq]. }
  intros Hold Hrun w1.
  destruct (get_container_status_spec n w)
    as (Hr & _ & _ & _ & _ & _ & _ & Hm).
  fold w1 in Hm. rewrite Hrun in Hr, Hm. simpl in Hr, Hm.
  split; [exact Hr|]. split.
  { rewrite Hm. apply lookup_delete_eq. }
  split; [|split].
  - intros w2 status Hsame Hans Hnot w3.
    destruct (get_container_status_spec n w2)
      as (Hr2 & _ & _ & _ & Hnow & _ & _ & Hm2).
    fold w3 in Hnow, Hm2. rewrite Hans in Hr2, Hm2. simpl in Hr2, Hm2.
    rewrite Hnot in Hr2, Hm2.
    assert (Hnone : container_down_times w2 !! n = None).
    { rewrite Hsame, Hm. apply lookup_delete_eq. }
    rewrite Hnone in Hm2.
    split; [exact Hr2|]. split; [exact Hnow|]. split.
    { rewrite Hm2. apply lookup_insert_eq. }
    intros w4 status' Hsame4 Hans4 Hnot4.
    destruct (get_container_status_spec n w4)
      as (_ & _ & _ & _ & _ & _ & _ & Hm4).
    rewrite Hans4, Hnot4 in Hm4.
    assert (Hsome : container_down_times w4 !! n = Some (now w3)).
    { rewrite Hsame4, Hm2. apply lookup_insert_eq. }
    rewrite Hsome in Hm4. rewrite Hm4. exact Hsome.
  - intros w2 e Hans.
    destruct (get_container_status_spec n w2)
      as (Hr2 & _ & _ & _ & _ & _ & _ & Hm2).
    rewrite Hans in Hr2, Hm2. split; assumption.
  - split; [exact Hgen|]. split.
    + intros v Hnone [t Hsome]. destruct (Hgen v) as [_ Hl].
      rewrite Hl in Hsome.
      destruct (docker_get env (tick v) n) as [status|e].
      * exists status. split; [reflexivity|].
        destruct (String.eqb status "running");
          [discriminate | reflexivity].
      * rewrite Hnone in Hsome. discriminate.
    + intros v Hup. destruct (Hgen v) as [_ Hl]. rewrite Hl.
      destruct (docker_get env (tick v) n) as [status|e];
        [|discriminate].
      cbn [is_running] in Hup. rewrite Hup. reflexivity.
Qed.

(** C6: a container whose down-time entry is younger than the restart
    grace period is reported healthy at once: [verify_container_health]
    returns [True] and leaves the world as it was, so no status poll is
    made and no time passes, whatever the container engine would have
    answered. *)
Theorem verify_within_restart_grace (n : string) (w : World) (down_since : Z) :
  container_down_times w !! n = Some down_since ->
  now w - down_since < seconds (restart_grace_period server_configs) ->
  verify_container_health n w = (true, w).
Proof.
  intros Hd Hlt.
  unfold verify_container_health, down_times_contains, down_times_getitem,
    time_time, gets, bind, ret. simpl.
  rewrite Hd. simpl. rewrite Hd. simpl.
  destruct (Z.ltb_spec (now w - down_since)
              (seconds (restart_grace_period server_configs))) as [_|Hge];
    [reflexivity | lia].
Qed.

(** *** The three polls of [verify_container_health] *)

Lemma get_container_status_down (n : string) (w : World) :
  is_running (docker_get env (tick w) n) = false ->
  get_container_status n w =
  (false,
   mkWorld (role w) (container_start_time w)
     (record_down n (docker_get env (tick w) n)
        (now w + Z.of_N (latency env (tick w))) (container_down_times w))
     (last_heartbeat w) (now w + Z.of_N (latency env (tick w)))
     (S (tick w)) (trace w ++ [DockerGet n])).
Proof.
  intros Hdown.
  unfold get_container_status, containers_get, external, bind, record_down.
  simpl. destruct (docker_get env (tick w) n) as [status|[|]]; simpl in *.
  - rewrite Hdown. simpl.
    destruct (container_down_times w !! n); reflexivity.
  - destruct (container_down_times w !! n); reflexivity.
  - destruct (container_down_times w !! n); reflexivity.
Qed.

Lemma get_container_status_up (n : string) (w : World) :
  is_running (docker_get env (tick w) n) = true ->
  fst (get_container_status n w) = true.
Proof.
  intros Hup. destruct (get_container_status_spec n w) as (H & _).
  rewrite H. exact Hup.
Qed.

Lemma poll_loop_nil (n : string) (w : World) : poll_loop n [] w = (false, w).
Proof. reflexivity. Qed.

Lemma poll_loop_cons (n : string) (i : Z) (rest : list Z) (w : World) :
  poll_loop n (i :: rest) w =
  if is_running (docker_get env (tick w) n)
  then (true, snd (get_container_status n w))
  else poll_loop n rest
         (if i <? consecutive_checks - 1
          then snd (time_sleep check_interval (after_poll_down n w))
          else after_poll_down n w).
Proof.
  cbn [poll_loop]. unfold bind at 1. cbv zeta.
  destruct (is_running (docker_get env (tick w) n)) eqn:E.
  - rewrite (get_container_status_up n w E). reflexivity.
  - rewrite (get_container_status_down n w E). cbn [fst snd].
    fold (after_poll_down n w). unfold bind.
    destruct (i <? consecutive_checks - 1); reflexivity.
Qed.

(** The poll loop finds the container running exactly when one of the
    three answers says so; when none does, the world after the loop is
    the one below. *)
Lemma poll_loop_spec (n : string) (w : World) :
  fst (poll_loop n (range consecutive_checks) w)
  = is_running (docker_get env (tick w) n)
    || is_running (docker_get env (S (tick w)) n)
    || is_running (docker_get env (S (S (tick w))) n) /\
  (fst (poll_loop n (range consecutive_checks) w) = false ->
   snd (poll_loop n (range consecutive_checks) w)
   = mkWorld (role w) (container_start_time w)
       (down_times_after_polls n w) (last_heartbeat w)
       (poll_time w 2) (S (S (S (tick w))))
       (trace w ++ polls_trace n)).
Proof.
  change (range consecutive_checks) with [0; 1; 2].
  rewrite !poll_loop_cons, poll_loop_nil.
  change (0 <? consecutive_checks - 1) with true.
  change (1 <? consecutive_checks - 1) with true.
  change (2 <? consecutive_checks - 1) with false.
  cbn [time_sleep after_poll_down snd tick].
  destruct (is_running (docker_get env (tick w) n));
    [split; [reflexivity | discriminate]|].
  destruct (is_running (docker_get env (S (tick w)) n));
    [split; [reflexivity | discriminate]|].
  destruct (is_running (docker_get env (S (S (tick w))) n));
    [split; [reflexivity | discriminate]|].
  split; [reflexivity|]. intros _.
  unfold down_times_after_polls, polls_trace, poll_time, after_poll_down.
  simpl. rewrite <- !app_assoc. reflexivity.
Qed.

Lemma verify_container_health_eq (n : string) (w : World) :
  verify_container_health n w =
  match container_down_times w !! n with
  | Some t =>
      if now w - t <? seconds (restart_grace_period server_configs)
      then (true, w) else verify_after_grace n w
  | None => verify_after_grace n w
  end.
Proof.
  unfold verify_container_health, verify_after_grace, down_times_contains,
    time_time, gets, bind, ret.
  cbn [fst snd].
  destruct (container_down_times w !! n) as [t|] eqn:E; cbn [fst snd].
  - assert (Hg : down_times_getitem n w = (t, w))
      by (unfold down_times_getitem; rewrite E; reflexivity).
    rewrite bool_decide_eq_true_2 by (eexists; reflexivity).
    cbv beta iota. rewrite Hg. cbn [fst snd].
    destruct (now w - t <? seconds (restart_grace_period server_configs));
      [reflexivity|].
    destruct (poll_loop n (range consecutive_checks) w) as [[|] w2];
      cbn [fst snd]; [reflexivity|].
    destruct (_ <=? _); reflexivity.
  - rewrite bool_decide_eq_false_2 by (intros [? ?]; discriminate).
    cbv beta iota. cbn [fst snd].
    destruct (poll_loop n (range consecutive_checks) w) as [[|] w2];
      cbn [fst snd]; [reflexivity|].
    destruct (_ <=? _); reflexivity.
Qed.

Lemma down_times_getitem_spec (n : string) (w : World) :
  fst (down_times_getitem n w) = default 0 (container_down_times w !! n) /\
  role (snd (down_times_getitem n w)) = role w /\
  container_start_time (snd (down_times_getitem n w))
  = container_start_time w /\
  last_heartbeat (snd (down_times_getitem n w)) = last_heartbeat w /\
  now (snd (down_times_getitem n w)) = now w /\
  tick (snd (down_times_getitem n w)) = tick w /\
  trace (snd (down_times_getitem n w)) = trace w /\
  container_down_times (snd (down_times_getitem n w))
  = match container_down_times w !! n with
    | Some _ => container_down_times w
    | None => <[n := 0]> (container_down_times w)
    end.
Proof.
  unfold down_times_getitem.
  destruct (container_down_times w !! n); simpl; repeat split; reflexivity.
Qed.

Lemma trace_not_extended (l more : list Event) :
  more <> [] -> l <> l ++ more.
Proof.
  intros Hne Heq. apply Hne.
  apply (app_inv_head l). rewrite app_nil_r. symmetry. exact Heq.
Qed.

(** What the final comparison of [verify_container_health] sees when the
    three polls found the container not running. *)
Lemma verify_after_grace_down (n : string) (w : World) :
  is_running (docker_get env (tick w) n) = false ->
  is_running (docker_get env (S (tick w)) n) = false ->
  is_running (docker_get env (S (S (tick w))) n) = false ->
  fst (verify_after_grace n w)
  = negb (seconds (restart_grace_period server_configs)
          <=? poll_time w 2 - default 0 (down_times_after_polls n w !! n)) /\
  now (snd (verify_after_grace n w)) = poll_time w 2 /\
  trace (snd (verify_after_grace n w)) = trace w ++ polls_trace n /\
  role (snd (verify_after_grace n w)) = role w /\
  container_start_time (snd (verify_after_grace n w))
  = container_start_time w /\
  container_down_times (snd (verify_after_grace n w))
  = match down_times_after_polls n w !! n with
    | Some _ => down_times_after_polls n w
    | None => <[n := 0]> (down_times_after_polls n w)
    end.
Proof.
  intros H0 H1 H2.
  destruct (poll_loop_spec n w) as [Hfst Hsnd].
  rewrite H0, H1, H2 in Hfst. cbn [orb] in Hfst. specialize (Hsnd Hfst).
  unfold verify_after_grace. cbv zeta. rewrite Hfst, Hsnd.
  match goal with |- context [down_times_getitem n ?s] =>
    destruct (down_times_getitem_spec n s)
      as (Hd & Hr & Hs & _ & Hn & _ & Ht & Hm)
  end.
  cbn [fst snd]. rewrite Hd, Hn, Ht, Hr, Hs, Hm. cbn.
  repeat split; reflexivity.
Qed.

Lemma verify_after_grace_false_iff (n : string) (w : World) :
  fst (verify_after_grace n w) = false <->
  trace (snd (verify_after_grace n w)) = trace w ++ polls_trace n /\
  is_running (docker_get env (tick w) n) = false /\
  is_running (docker_get env (S (tick w)) n) = false /\
  is_running (docker_get env (S (S (tick w))) n) = false /\
  seconds (restart_grace_period server_configs)
  <= now (snd (verify_after_grace n w))
     - default 0 (down_times_after_polls n w !! n).
Proof.
  destruct (is_running (docker_get env (tick w) n)) eqn:H0;
  [|destruct (is_running (docker_get env (S (tick w)) n)) eqn:H1;
    [|destruct (is_running (docker_get env (S (S (tick w))) n)) eqn:H2]].
  4: {
    destruct (verify_after_grace_down n w H0 H1 H2)
      as (Hf & Hn & Ht & _).
    rewrite Hf, Hn, Ht.
    destruct (Z.leb_spec (seconds (restart_grace_period server_configs))
                (poll_time w 2
                 - default 0 (down_times_after_polls n w !! n)))
      as [Hle|Hgt];
      cbn [negb]; split; intros H; try discriminate.
    - repeat split; try reflexivity. assumption.
    - reflexivity.
    - destruct H as (_ & _ & _ & _ & H). lia. }
  all: destruct (poll_loop_spec n w) as [Hfst _];
    rewrite ?H0, ?H1, ?H2 in Hfst; cbn [orb] in Hfst;
    unfold verify_after_grace; cbv zeta; rewrite Hfst; cbn [fst];
    split; intros H; [discriminate|];
    destruct H as (_ & Ha & Hb & Hc & _); discriminate.
Qed.

(** The result of [verify_container_health] in terms of the answers of
    the container engine: it is [False] exactly when the three status
    polls were made (the trace grew by them), each of the three reported
    the container not running, and the final comparison succeeded on the
    value that the read of the down-time map gave it ([default 0]: the
    stamp of the entry, or the 0.0 a [defaultdict] gives for a key it
    does not hold). *)
Theorem verify_false_iff (n : string) (w : World) :
  fst (verify_container_health n w) = false <->
  trace (snd (verify_container_health n w)) = trace w ++ polls_trace n /\
  is_running (docker_get env (tick w) n) = false /\
  is_running (docker_get env (S (tick w)) n) = false /\
  is_running (docker_get env (S (S (tick w))) n) = false /\
  seconds (restart_grace_period server_configs)
  <= now (snd (verify_container_health n w))
     - default 0 (down_times_after_polls n w !! n).
Proof.
  rewrite verify_container_health_eq.
  assert (Hearly :
    fst (true, w) = false <->
    trace (snd (true, w)) = trace w ++ polls_trace n /\
    is_running (docker_get env (tick w) n) = false /\
    is_running (docker_get env (S (tick w)) n) = false /\
    is_running (docker_get env (S (S (tick w))) n) = false /\
    seconds (restart_grace_period server_configs)
    <= now (snd (true, w)) - default 0 (down_times_after_polls n w !! n)).
  { cbn [fst snd]. split; [discriminate|]. intros (Ht & _).
    exfalso. revert Ht. apply trace_not_extended. discriminate. }
  destruct (container_down_times w !! n) as [t|].
  - destruct (now w - t <? seconds (restart_grace_period server_configs)).
    + exact Hearly.
    + apply verify_after_grace_false_iff.
  - apply verify_after_grace_false_iff.
Qed.

(** The value the final comparison reads: the stamp recorded before the
    call if there is one; nothing when there is none and every poll ended
    in an exception. *)
Lemma down_times_after_polls_tracked (n : string) (w : World) (t : Z) :
  container_down_times w !! n = Some t ->
  down_times_after_polls n w = container_down_times w.
Proof.
  intros H. unfold down_times_after_polls, record_down.
  rewrite H. rewrite H. rewrite H. reflexivity.
Qed.

Lemma down_times_after_polls_errors (n : string) (w : World) (e0 e1 e2 : Exn) :
  docker_get env (tick w) n = Raise e0 ->
  docker_get env (S (tick w)) n = Raise e1 ->
  docker_get env (S (S (tick w))) n = Raise e2 ->
  down_times_after_polls n w = container_down_times w.
Proof.
  intros H0 H1 H2. unfold down_times_after_polls, record_down.
  rewrite H0, H1, H2.
  destruct (container_down_times w !! n) eqn:E; rewrite ?E; reflexivity.
Qed.

(** C9, amended: when the container has no down-time entry and each of
    the three polls ends in an exception of the container engine (not
    found, or any other error), so that no down time is recorded, and the
    clock reads at least the restart grace period, then
    [verify_container_health] returns [False], and the read of the final
    comparison has stored the stamp 0 for the container in the map. *)
Theorem verify_untracked_not_found (n : string) (w : World) (e0 e1 e2 : Exn) :
  container_down_times w !! n = None ->
  docker_get env (tick w) n = Raise e0 ->
  docker_get env (S (tick w)) n = Raise e1 ->
  docker_get env (S (S (tick w))) n = Raise e2 ->
  seconds (restart_grace_period server_configs) <= now w ->
  fst (verify_container_health n w) = false /\
  container_down_times (snd (poll_loop n (range consecutive_checks) w)) !! n
  = None /\
  container_down_times (snd (verify_container_health n w))
  = <[n := 0]> (container_down_times w).
Proof.
  intros Hnone H0 H1 H2 Hclock.
  assert (R0 : is_running (docker_get env (tick w) n) = false)
    by (rewrite H0; reflexivity).
  assert (R1 : is_running (docker_get env (S (tick w)) n) = false)
    by (rewrite H1; reflexivity).
  assert (R2 : is_running (docker_get env (S (S (tick w))) n) = false)
    by (rewrite H2; reflexivity).
  pose proof (down_times_after_polls_errors n w e0 e1 e2 H0 H1 H2) as Hsame.
  rewrite verify_container_health_eq, Hnone.
  destruct (verify_after_grace_down n w R0 R1 R2)
    as (Hf & _ & _ & _ & _ & Hm).
  rewrite Hsame, Hnone in Hf, Hm. cbn [default] in Hf.
  split.
  { rewrite Hf.
    destruct (Z.leb_spec (seconds (restart_grace_period server_configs))
                (poll_time w 2 - 0)) as [Hle|Hgt]; [reflexivity|].
    unfold poll_time, seconds, check_interval in *. lia. }
  split; [|exact Hm].
  destruct (poll_loop_spec n w) as [Hfst Hsnd].
  rewrite R0, R1, R2 in Hfst. cbn [orb] in Hfst.
  rewrite (Hsnd Hfst). cbn [container_down_times].
  rewrite Hsame. exact Hnone.
Qed.

(** *** What the operations leave alone *)

Lemma frame_refl (w : World) : frame w w.
Proof.
  split; try reflexivity. exists []. symmetry. apply app_nil_r.
Qed.

Lemma frame_trans (w1 w2 w3 : World) :
  frame w1 w2 -> frame w2 w3 -> frame w1 w3.
Proof.
  intros [a1 b1 c1 d1 e1 [l1 f1]] [a2 b2 c2 d2 e2 [l2 f2]].
  split; try congruence; try lia.
  exists (l1 ++ l2). rewrite f2, f1. symmetry. apply app_assoc.
Qed.

Lemma steady_refl (w : World) : steady w w.
Proof.
  split; try reflexivity. exists []. symmetry. apply app_nil_r.
Qed.

Lemma steady_trans (w1 w2 w3 : World) :
  steady w1 w2 -> steady w2 w3 -> steady w1 w3.
Proof.
  intros [b1 c1 d1 [l1 f1]] [b2 c2 d2 [l2 f2]].
  split; try congruence; try lia.
  exists (l1 ++ l2). rewrite f2, f1. symmetry. apply app_assoc.
Qed.

Lemma frame_steady (w w' : World) : frame w w' -> steady w w'.
Proof. intros [a b c d e f]. split; assumption. Qed.

Section Keeps.

Variable R : World -> World -> Prop.
Hypothesis R_refl : forall w, R w w.
Hypothesis R_trans : forall w1 w2 w3, R w1 w2 -> R w2 w3 -> R w1 w3.

Lemma keeps_ret {A} (a : A) : keeps R (ret a).
Proof using R_refl. intros w. apply R_refl. Qed.

Lemma keeps_gets {A} (f : World -> A) : keeps R (gets f).
Proof using R_refl. intros w. apply R_refl. Qed.

Lemma keeps_bind {A B} (m : M A) (f : A -> M B) :
  keeps R m -> (forall a, keeps R (f a)) -> keeps R (bind m f).
Proof using R_trans.
  intros Hm Hf w. unfold bind. cbv zeta.
  eapply R_trans; [apply Hm | apply Hf].
Qed.

End Keeps.

Lemma acquisitions_app (t : list Event) (ev : Event) :
  length (List.filter is_acquire (t ++ [ev]))
  = (length (List.filter is_acquire t) + (if is_acquire ev then 1 else 0))%nat.
Proof.
  rewrite List.filter_app, length_app. simpl.
  destruct (is_acquire ev); reflexivity.
Qed.

Lemma external_frame {A} (ev : Event) (answer : nat -> A) :
  is_acquire ev = false -> keeps frame (external ev answer).
Proof.
  intros Hev w. unfold external. simpl.
  split; simpl; try reflexivity; try lia.
  - unfold acquisitions. simpl. rewrite acquisitions_app, Hev. lia.
  - eexists. reflexivity.
Qed.

Lemma time_sleep_frame (secs : Z) : 0 <= secs -> keeps frame (time_sleep secs).
Proof.
  intros Hs w. unfold time_sleep. simpl.
  split; simpl; try reflexivity.
  - unfold seconds. lia.
  - unfold acquisitions. simpl. rewrite acquisitions_app. simpl. lia.
  - eexists. reflexivity.
Qed.

Lemma down_times_frame (f : World -> gmap string Z) :
  keeps frame (modify (fun w => set_container_down_times (f w) w)).
Proof.
  intros w. simpl. split; simpl; try reflexivity; try lia.
  exists []. symmetry. apply app_nil_r.
Qed.

Lemma down_times_getitem_frame (n : string) :
  keeps frame (down_times_getitem n).
Proof.
  intros w. destruct (down_times_getitem_spec n w)
    as (_ & Hr & Hs & Hh & Hn & _ & Ht & _).
  split; try assumption; try lia.
  - unfold acquisitions. rewrite Ht. reflexivity.
  - exists []. rewrite Ht. symmetry. apply app_nil_r.
Qed.

Create HintDb frame.

Ltac frame_step :=
  match goal with
  | |- keeps frame (bind _ _) =>
      apply (keeps_bind frame frame_trans); [|intros ?]
  | |- keeps frame (ret _) => apply (keeps_ret frame frame_refl)
  | |- keeps frame (gets _) => apply (keeps_gets frame frame_refl)
  | |- keeps frame time_time => apply (keeps_gets frame frame_refl)
  | |- keeps frame (external _ _) => apply external_frame; reflexivity
  | |- keeps frame (time_sleep _) =>
      apply time_sleep_frame; cbv; discriminate
  | |- keeps frame (down_times_getitem _) => apply down_times_getitem_frame
  | |- keeps frame (if ?b then _ else _) => destruct b
  | |- keeps frame (match ?x with _ => _ end) => destruct x
  | |- keeps frame _ => solve [auto with frame]
  end.

Ltac frame_auto := repeat frame_step.

Lemma containers_get_frame (n : string) : keeps frame (containers_get n).
Proof. unfold containers_get. frame_auto. Qed.

Lemma container_start_frame (n : string) : keeps frame (container_start n).
Proof. unfold container_start. frame_auto. Qed.

Lemma container_stop_frame (n : string) : keeps frame (container_stop n).
Proof. unfold container_stop. frame_auto. Qed.

Lemma requests_post_frame (path : string) : keeps frame (requests_post path).
Proof. unfold requests_post. frame_auto. Qed.

Lemma down_times_contains_frame (n : string) :
  keeps frame (down_times_contains n).
Proof. unfold down_times_contains. frame_auto. Qed.

Lemma down_times_setitem_frame (n : string) (t : Z) :
  keeps frame (down_times_setitem n t).
Proof. apply down_times_frame. Qed.

Lemma down_times_delitem_frame (n : string) :
  keeps frame (down_times_delitem n).
Proof. apply down_times_frame. Qed.

Hint Resolve containers_get_frame container_start_frame container_stop_frame
  requests_post_frame down_times_contains_frame down_times_setitem_frame
  down_times_delitem_frame : frame.

Lemma should_check_container_frame (n : string) :
  keeps frame (should_check_container n).
Proof. unfold should_check_container. frame_auto. Qed.

Lemma get_container_status_frame (n : string) :
  keeps frame (get_container_status n).
Proof. unfold get_container_status. frame_auto. Qed.

Hint Resolve should_check_container_frame get_container_status_frame : frame.

Lemma all_running_frame (cs : list string) : keeps frame (all_running cs).
Proof. induction cs as [|c rest IH]; cbn [all_running]; frame_auto. Qed.

Hint Resolve all_running_frame : frame.

Lemma wait_loop_frame (fuel : nat) (cs : list string) (start_time timeout : Z) :
  keeps frame (wait_loop fuel cs start_time timeout).
Proof. induction fuel as [|fuel IH]; cbn [wait_loop]; frame_auto. Qed.

Hint Resolve wait_loop_frame : frame.

Lemma wait_for_containers_startup_frame (cs : list string) (timeout : Z) :
  keeps frame (wait_for_containers_startup cs timeout).
Proof. unfold wait_for_containers_startup. frame_auto. Qed.

Lemma stop_each_frame (cs : list string) : keeps frame (stop_each cs).
Proof. induction cs as [|c rest IH]; cbn [stop_each]; frame_auto. Qed.

Lemma start_each_frame (cs : list string) : keeps frame (start_each cs).
Proof. induction cs as [|c rest IH]; cbn [start_each]; frame_auto. Qed.

Hint Resolve wait_for_containers_startup_frame stop_each_frame
  start_each_frame : frame.

Lemma stop_all_containers_frame (cs : list string) :
  keeps frame (stop_all_containers cs).
Proof. unfold stop_all_containers. frame_auto. Qed.

Lemma notify_other_server_frame : keeps frame notify_other_server.
Proof. unfold notify_other_server. frame_auto. Qed.

Lemma poll_loop_frame (n : string) (l : list Z) : keeps frame (poll_loop n l).
Proof. induction l as [|i rest IH]; cbn [poll_loop]; frame_auto. Qed.

Hint Resolve stop_all_containers_frame notify_other_server_frame
  poll_loop_frame : frame.

Lemma verify_container_health_frame (n : string) :
  keeps frame (verify_container_health n).
Proof. unfold verify_container_health. frame_auto. Qed.

Hint Resolve verify_container_health_frame : frame.

(** *** Role transitions *)

Lemma become_backup_eq (cs : list string) (w : World) :
  become_backup cs w = (tt, snd (stop_all_containers cs (set_role BACKUP w))).
Proof.
  unfold become_backup, bind, modify, ret. cbn [fst snd].
  destruct (stop_all_containers cs (set_role BACKUP w)) as [[|] w'];
    reflexivity.
Qed.

Lemma become_backup_role (cs : list string) (w : World) :
  role (snd (become_backup cs w)) = BACKUP.
Proof.
  rewrite become_backup_eq. cbn [snd].
  rewrite (fr_role _ _ (stop_all_containers_frame cs _)). reflexivity.
Qed.

Lemma set_role_steady (r : ServerRole) (w : World) : steady w (set_role r w).
Proof.
  split; simpl; try reflexivity; try lia.
  exists []. symmetry. apply app_nil_r.
Qed.

Lemma become_backup_steady (cs : list string) (w : World) :
  steady w (snd (become_backup cs w)).
Proof.
  rewrite become_backup_eq. cbn [snd].
  eapply steady_trans; [apply set_role_steady|].
  apply frame_steady, stop_all_containers_frame.
Qed.

Lemma become_backup_acquisitions (cs : list string) (w : World) :
  acquisitions (snd (become_backup cs w)) = acquisitions w.
Proof.
  rewrite become_backup_eq. cbn [snd].
  rewrite (fr_acquisitions _ _ (stop_all_containers_frame cs _)).
  reflexivity.
Qed.

Lemma stop_notify_become_backup_eq (cs : list string) (w : World) :
  let stopped := stop_all_containers cs w in
  let notified := notify_other_server (snd stopped) in
  stop_notify_become_backup cs w =
  (tt, if fst stopped
       then if fst notified
            then snd (become_backup cs (snd notified))
            else snd notified
       else snd stopped).
Proof.
  unfold stop_notify_become_backup, bind, ret. cbv zeta.
  destruct (stop_all_containers cs w) as [[|] w1]; cbn [fst snd];
    [|reflexivity].
  destruct (notify_other_server w1) as [[|] w2]; cbn [fst snd];
    [|reflexivity].
  destruct (become_backup cs w2) as [[] w3]. reflexivity.
Qed.

Lemma stop_notify_become_backup_steady (cs : list string) (w : World) :
  steady w (snd (stop_notify_become_backup cs w)).
Proof.
  rewrite stop_notify_become_backup_eq. cbn [snd].
  pose proof (frame_steady _ _ (stop_all_containers_frame cs w)) as H1.
  pose proof (frame_steady _ _
                (notify_other_server_frame
                   (snd (stop_all_containers cs w)))) as H2.
  destruct (fst (stop_all_containers cs w)); [|exact H1].
  destruct (fst (notify_other_server _)).
  - eapply steady_trans; [exact H1|].
    eapply steady_trans; [exact H2|]. apply become_backup_steady.
  - eapply steady_trans; [exact H1 | exact H2].
Qed.

Lemma stop_notify_become_backup_acquisitions (cs : list string) (w : World) :
  acquisitions (snd (stop_notify_become_backup cs w)) = acquisitions w.
Proof.
  rewrite stop_notify_become_backup_eq. cbn [snd].
  pose proof (fr_acquisitions _ _ (stop_all_containers_frame cs w)) as H1.
  pose proof (fr_acquisitions _ _
                (notify_other_server_frame
                   (snd (stop_all_containers cs w)))) as H2.
  destruct (fst (stop_all_containers cs w)); [|exact H1].
  destruct (fst (notify_other_server _)).
  - rewrite become_backup_acquisitions. congruence.
  - congruence.
Qed.

(** C3: the primary-side failure path of [monitor_containers_wrapper] is
    a conditional sequence under the failover lock.  It stops all owned
    containers.  When that fails nothing else is done: the peer is not
    notified and the role is not changed.  When it succeeds the peer is
    notified; when the notification fails nothing else is done.  Only
    when both succeed is [become_backup] run.  So the role afterwards is
    BACKUP when both succeeded and is the role before otherwise: a node
    that was PRIMARY stays PRIMARY when stopping or notifying fails. *)
Theorem primary_failure_path_sequence (w : World) :
  let stopped := stop_all_containers (containers config) (snd (lock_acquire w)) in
  let notified := notify_other_server (snd stopped) in
  let w' := snd (primary_failure_path w) in
  (fst stopped = false -> w' = snd (lock_release (snd stopped))) /\
  (fst stopped = true -> fst notified = false ->
   w' = snd (lock_release (snd notified))) /\
  (fst stopped = true -> fst notified = true ->
   w' = snd (lock_release
               (snd (become_backup (containers config) (snd notified))))) /\
  role w' = (if fst stopped && fst notified then BACKUP else role w).
Proof.
  cbv zeta. unfold primary_failure_path, bind. cbv zeta.
  rewrite stop_notify_become_backup_eq. cbn [fst snd].
  set (w0 := snd (lock_acquire w)).
  pose proof (fr_role _ _ (stop_all_containers_frame (containers config) w0))
    as Hr1.
  pose proof (fr_role _ _
                (notify_other_server_frame
                   (snd (stop_all_containers (containers config) w0))))
    as Hr2.
  destruct (fst (stop_all_containers (containers config) w0)).
  - destruct (fst (notify_other_server _)).
    + repeat split; try discriminate; try reflexivity.
      cbn [andb]. unfold lock_release, modify. cbn [snd role].
      apply become_backup_role.
    + repeat split; try discriminate; try reflexivity.
      cbn [andb]. unfold lock_release, modify. cbn [snd role].
      rewrite Hr2, Hr1. reflexivity.
  - repeat split; try discriminate; try reflexivity.
    cbn [andb]. unfold lock_release, modify. cbn [snd role].
    rewrite Hr1. reflexivity.
Qed.

Lemma start_all_containers_eq (cs : list string) (w : World) :
  start_all_containers cs w =
  match fst (start_each cs w) with
  | Ok _ => wait_for_containers_startup cs 300 (started_world cs w)
  | Raise _ => (false, snd (start_each cs w))
  end.
Proof.
  unfold start_all_containers, started_world, bind, time_time, gets, modify,
    ret. cbv zeta.
  destruct (start_each cs w) as [[[]|e] w1]; cbn [fst snd]; [|reflexivity].
  destruct (wait_for_containers_startup cs 300 _) as [[|] w2]; reflexivity.
Qed.

(** [start_all_containers] leaves the role and the lock alone. *)
Lemma start_all_containers_role (cs : list string) (w : World) :
  role (snd (start_all_containers cs w)) = role w /\
  acquisitions (snd (start_all_containers cs w)) = acquisitions w /\
  last_heartbeat (snd (start_all_containers cs w)) = last_heartbeat w /\
  now w <= now (snd (start_all_containers cs w)).
Proof.
  rewrite start_all_containers_eq.
  pose proof (start_each_frame cs w) as [Hr _ Hh Hn Ha _].
  destruct (fst (start_each cs w)); cbn [snd]; [|repeat split; assumption].
  pose proof (wait_for_containers_startup_frame cs 300 (started_world cs w))
    as [Hr' _ Hh' Hn' Ha' _].
  change (role (started_world cs w)) with (role (snd (start_each cs w)))
    in Hr'.
  change (last_heartbeat (started_world cs w))
    with (last_heartbeat (snd (start_each cs w))) in Hh'.
  change (now (started_world cs w)) with (now (snd (start_each cs w)))
    in Hn'.
  change (acquisitions (started_world cs w))
    with (acquisitions (snd (start_each cs w))) in Ha'.
  repeat split; try congruence. lia.
Qed.

Lemma become_primary_eq (cs : list string) (w : World) :
  become_primary cs w = start_all_containers cs (set_role PRIMARY w).
Proof. reflexivity. Qed.

Lemma become_primary_role (cs : list string) (w : World) :
  role (snd (become_primary cs w)) = PRIMARY /\
  acquisitions (snd (become_primary cs w)) = acquisitions w.
Proof.
  rewrite become_primary_eq.
  destruct (start_all_containers_role cs (set_role PRIMARY w))
    as (Hr & Ha & _).
  split; assumption.
Qed.

Lemma ServerRole_eqb_eq (a b : ServerRole) :
  ServerRole_eqb a b = true <-> a = b.
Proof. destruct a, b; simpl; split; congruence. Qed.

Lemma initiate_failover_eq (w : World) :
  initiate_failover w =
  if ServerRole_eqb (role w) BACKUP
  then (fst (become_primary (containers config) (snd (lock_acquire w))),
        snd (lock_release
               (snd (become_primary (containers config)
                       (snd (lock_acquire w))))))
  else (false, snd (lock_release (snd (lock_acquire w)))).
Proof.
  unfold initiate_failover, bind, gets, ret. cbn [fst snd].
  change (role (snd (lock_acquire w))) with (role w).
  destruct (ServerRole_eqb (role w) BACKUP); [|reflexivity].
  cbv zeta.
  destruct (become_primary (containers config) (snd (lock_acquire w)))
    as [[|] w1]; reflexivity.
Qed.

(** C4: in a state whose role is not BACKUP, [initiate_failover] returns
    [False] and does nothing but take and release the failover lock: no
    container is looked up or started, no time passes and no field of the
    state changes, the role included.  In a state whose role is BACKUP it
    runs [become_primary] on the owned containers under the lock and
    returns what [become_primary] returned. *)
Theorem initiate_failover_guard (w : World) :
  (role w <> BACKUP ->
   initiate_failover w =
   (false,
    mkWorld (role w) (container_start_time w) (container_down_times w)
      (last_heartbeat w) (now w) (tick w)
      (trace w ++ [LockAcquire; LockRelease]))) /\
  (role w = BACKUP ->
   let p := become_primary (containers config) (snd (lock_acquire w)) in
   initiate_failover w = (fst p, snd (lock_release (snd p)))).
Proof.
  rewrite initiate_failover_eq. split; intros Hr.
  - destruct (ServerRole_eqb (role w) BACKUP) eqn:E.
    + apply ServerRole_eqb_eq in E. contradiction.
    + unfold lock_release, lock_acquire, modify. cbn [snd].
      simpl. rewrite <- app_assoc. reflexivity.
  - rewrite Hr. reflexivity.
Qed.

(** *** The staleness check *)

Lemma lock_acquire_acquisitions (w : World) :
  acquisitions (snd (lock_acquire w)) = S (acquisitions w).
Proof.
  unfold acquisitions, lock_acquire, modify. cbn [snd trace].
  rewrite acquisitions_app. cbn [is_acquire]. lia.
Qed.

Lemma lock_release_acquisitions (w : World) :
  acquisitions (snd (lock_release w)) = acquisitions w.
Proof.
  unfold acquisitions, lock_release, modify. cbn [snd trace].
  rewrite acquisitions_app. cbn [is_acquire]. lia.
Qed.

Lemma time_sleep_acquisitions (secs : Z) (w : World) :
  acquisitions (snd (time_sleep secs w)) = acquisitions w.
Proof.
  unfold acquisitions, time_sleep. cbn [snd trace].
  rewrite acquisitions_app. cbn [is_acquire]. lia.
Qed.

Lemma initiate_failover_acquisitions (w : World) :
  acquisitions (snd (initiate_failover w)) = S (acquisitions w).
Proof.
  rewrite initiate_failover_eq.
  destruct (ServerRole_eqb (role w) BACKUP); cbn [snd];
    rewrite lock_release_acquisitions.
  - destruct (become_primary_role (containers config) (snd (lock_acquire w)))
      as [_ Ha].
    rewrite Ha. apply lock_acquire_acquisitions.
  - apply lock_acquire_acquisitions.
Qed.

(** The heartbeat stamp is 0 or a clock reading: [receive_heartbeat] is
    its only writer. *)
Lemma receive_heartbeat_stamp (request : gmap string string) (w : World) :
  0 <= now w -> 0 <= last_heartbeat w ->
  0 <= last_heartbeat (snd (receive_heartbeat request w)).
Proof.
  intros Hn Hl. unfold receive_heartbeat.
  destruct (negb (server_name_given request)); [exact Hl | exact Hn].
Qed.

Lemma check_heartbeat_iteration_eq (w : World) :
  check_heartbeat_iteration w =
  time_sleep (check_heartbeat_interval server_configs)
    (if ServerRole_eqb (role w) BACKUP
        && (0 <? last_heartbeat w)
        && (seconds (heartbeat_timeout server_configs)
            <? now w - last_heartbeat w)
     then snd (initiate_failover w) else w).
Proof.
  unfold check_heartbeat_iteration, bind, time_time, gets, ret.
  cbn [fst snd].
  destruct (ServerRole_eqb (role w) BACKUP); cbn [andb]; [|reflexivity].
  destruct (0 <? last_heartbeat w); cbn [andb]; [|reflexivity].
  destruct (_ <? _); reflexivity.
Qed.

(** C8: for a heartbeat stamp that is not negative (it is 0 or a clock
    reading), one iteration of the staleness loop calls
    [initiate_failover], and so takes the failover lock once, exactly
    when the role is BACKUP, the stamp of the last heartbeat is not zero
    and the time since that stamp exceeds the heartbeat timeout; in every
    other case the iteration only sleeps.  So no failover is started
    while the stamp is still zero. *)
Theorem check_heartbeat_calls_failover (w : World) :
  0 <= last_heartbeat w ->
  (acquisitions (snd (check_heartbeat_iteration w)) = S (acquisitions w)
   <-> heartbeat_stale w) /\
  (heartbeat_stale w ->
   check_heartbeat_iteration w =
   time_sleep (check_heartbeat_interval server_configs)
     (snd (initiate_failover w))) /\
  (~ heartbeat_stale w ->
   check_heartbeat_iteration w =
   time_sleep (check_heartbeat_interval server_configs) w) /\
  (last_heartbeat w = 0 ->
   check_heartbeat_iteration w =
   time_sleep (check_heartbeat_interval server_configs) w).
Proof.
  intros Hnonneg. rewrite check_heartbeat_iteration_eq.
  unfold heartbeat_stale.
  destruct (ServerRole_eqb (role w) BACKUP) eqn:Er; cbn [andb].
  - apply ServerRole_eqb_eq in Er.
    destruct (Z.ltb_spec 0 (last_heartbeat w)) as [Hpos|Hzero]; cbn [andb];
      [destruct (Z.ltb_spec (seconds (heartbeat_timeout server_configs))
                   (now w - last_heartbeat w)) as [Hlt|Hge]|];
      rewrite time_sleep_acquisitions, ?initiate_failover_acquisitions;
      repeat split; try reflexivity; try assumption; try lia;
      try (intros [Hr [Hz Ht]]; lia);
      try (intros Hn; exfalso; apply Hn; repeat split;
           first [assumption | lia]).
  - rewrite time_sleep_acquisitions.
    assert (Hne : role w <> BACKUP).
    { intros E. rewrite E in Er. discriminate. }
    repeat split; try reflexivity; try lia;
      try (intros [Hr _]; contradiction).
Qed.

(** *** The startup grace period *)

Lemma should_check_container_in_grace (n : string) (w : World) :
  in_startup_grace w -> should_check_container n w = (false, w).
Proof.
  unfold in_startup_grace. intros Hg.
  unfold should_check_container, bind, time_time, gets, ret.
  cbn [fst snd].
  destruct (Z.ltb_spec (now w - container_start_time w)
              (seconds (startup_grace_period server_configs)));
    [reflexivity | lia].
Qed.

Lemma check_container_in_grace (n : string) (w : World) :
  in_startup_grace w -> check_container n w = (tt, w).
Proof.
  intros Hg. unfold check_container, bind.
  rewrite (should_check_container_in_grace n w Hg). reflexivity.
Qed.

Lemma for_each_check_container_in_grace (cs : list string) (w : World) :
  in_startup_grace w -> for_each cs check_container w = (tt, w).
Proof.
  intros Hg. induction cs as [|c rest IH]; [reflexivity|].
  cbn [for_each]. unfold bind.
  rewrite (check_container_in_grace c w Hg). cbn [fst snd]. exact IH.
Qed.

Lemma wrapper_iteration_in_grace (w : World) :
  in_startup_grace w ->
  monitor_containers_wrapper_iteration w = time_sleep 10 w.
Proof.
  intros Hg. unfold monitor_containers_wrapper_iteration, bind, gets, ret.
  cbn [fst snd].
  destruct (ServerRole_eqb (role w) PRIMARY); [|reflexivity].
  rewrite (for_each_check_container_in_grace _ w Hg). reflexivity.
Qed.

Lemma monitor_containers_iteration_in_grace (cs : list string) (w : World) :
  in_startup_grace w -> role w = PRIMARY ->
  monitor_containers_iteration cs w = time_sleep 30 w.
Proof.
  unfold in_startup_grace. intros Hg Hr.
  unfold monitor_containers_iteration, bind, time_time, gets, ret.
  cbn [fst snd]. rewrite Hr. cbn [ServerRole_eqb fst snd].
  destruct (Z.ltb_spec (now w - container_start_time w)
              (seconds (startup_grace_period server_configs)));
    [reflexivity | lia].
Qed.

Lemma start_all_containers_start_time (cs : list string) (w : World) :
  container_start_time (snd (start_all_containers cs w))
  = match fst (start_each cs w) with
    | Ok _ => now (snd (start_each cs w))
    | Raise _ => container_start_time w
    end.
Proof.
  rewrite start_all_containers_eq.
  destruct (fst (start_each cs w)); cbn [snd].
  - rewrite (fr_start _ _ (wait_for_containers_startup_frame cs 300 _)).
    reflexivity.
  - apply (fr_start _ _ (start_each_frame cs w)).
Qed.

(** C10: when every start call of [start_all_containers] returns without
    raising, [container_start_time] is set to the clock reading taken
    after the start calls and before the wait, whatever the wait and the
    function then return.  In every later state that still holds this
    start time and whose clock is less than the startup grace period past
    it, [should_check_container] returns [False] for every container
    without looking it up, an iteration of [monitor_containers_wrapper]
    does nothing but sleep, and so does an iteration of
    [monitor_containers] on a PRIMARY. *)
Theorem start_all_restarts_startup_grace (cs : list string) (w : World) :
  fst (start_each cs w) = Ok tt ->
  let w' := snd (start_all_containers cs w) in
  container_start_time w' = now (snd (start_each cs w)) /\
  now (snd (start_each cs w)) <= now w' /\
  forall w'',
    container_start_time w'' = container_start_time w' ->
    now w'' - container_start_time w''
    < seconds (startup_grace_period server_configs) ->
    (forall n, should_check_container n w'' = (false, w'')) /\
    monitor_containers_wrapper_iteration w'' = time_sleep 10 w'' /\
    (forall cs', role w'' = PRIMARY ->
                 monitor_containers_iteration cs' w'' = time_sleep 30 w'').
Proof.
  intros Hok w'. subst w'.
  split.
  { rewrite start_all_containers_start_time, Hok. reflexivity. }
  split.
  { rewrite start_all_containers_eq, Hok.
    apply (fr_now _ _ (wait_for_containers_startup_frame cs 300
                         (started_world cs w))). }
  intros w'' _ Hg. split; [|split].
  - intros n. apply should_check_container_in_grace. exact Hg.
  - apply wrapper_iteration_in_grace. exact Hg.
  - intros cs' Hr. apply monitor_containers_iteration_in_grace; assumption.
Qed.

(** *** Starting the containers and waiting for them *)

Lemma all_running_cons (c : string) (rest : list string) (w : World) :
  all_running (c :: rest) w =
  if is_running (docker_get env (tick w) c)
  then all_running rest (snd (get_container_status c w))
  else (false, snd (get_container_status c w)).
Proof.
  cbn [all_running]. unfold bind. cbv zeta.
  destruct (get_container_status_spec c w) as (Hf & _).
  rewrite Hf. destruct (is_running _); reflexivity.
Qed.


Lemma next_round_clock (cs : list string) (w : World) :
  now w + 10000 <= now (next_round cs w).
Proof.
  unfold next_round, time_sleep. cbn [snd now].
  apply Z.add_le_mono; [|cbv; discriminate].
  apply (fr_now _ _ (all_running_frame cs w)).
Qed.



Lemma wait_loop_succ (fuel : nat) (cs : list string) (start_time timeout : Z)
  (w : World) :
  wait_loop (S fuel) cs start_time timeout w =
  if now w - start_time <? seconds timeout
  then if fst (all_running cs w)
       then (Some true, snd (all_running cs w))
       else wait_loop fuel cs start_time timeout (next_round cs w)
  else (Some false, w).
Proof.
  cbn [wait_loop]. unfold bind, time_time, gets, ret. cbn [fst snd].
  destruct (now w - start_time <? seconds timeout); [|reflexivity].
  destruct (fst (all_running cs w)); reflexivity.
Qed.


(** The fuel is enough: ten seconds pass in every round, so the loop
    condition fails before the fuel is used up. *)
Lemma wait_loop_fuel (fuel : nat) (cs : list string) (start_time timeout : Z)
  (w : World) :
  start_time + seconds timeout - now w <= 10000 * Z.of_nat fuel ->
  fst (wait_loop (S fuel) cs start_time timeout w) <> None.
Proof.
  revert w. induction fuel as [|fuel IH]; intros w Hleft;
    rewrite wait_loop_succ.
  - destruct (Z.ltb_spec (now w - start_time) (seconds timeout));
      [lia | discriminate].
  - destruct (Z.ltb_spec (now w - start_time) (seconds timeout));
      [|discriminate].
    destruct (fst (all_running cs w)); [discriminate|].
    apply IH. pose proof (next_round_clock cs w). lia.
Qed.

Lemma wait_fuel_enough (cs : list string) (timeout : Z) (w : World) :
  fst (wait_loop (wait_fuel timeout) cs (now w) timeout w) <> None.
Proof.
  unfold wait_fuel. apply wait_loop_fuel. unfold seconds.
  destruct (Z.le_gt_cases 0 timeout) as [Hpos|Hneg].
  - rewrite Nat2Z.inj_succ, Z2Nat.id by (apply Z.div_pos; lia).
    pose proof (Z.div_mod timeout 10 ltac:(lia)).
    pose proof (Z.mod_pos_bound timeout 10 ltac:(lia)). lia.
  - lia.
Qed.



Lemma start_each_cons (c : string) (rest : list string) (w : World) :
  start_each (c :: rest) w =
  match docker_get env (tick w) c with
  | Ok _ =>
      match docker_start env (S (tick w)) c with
      | Ok _ => start_each rest (snd (container_start c (snd (containers_get c w))))
      | Raise e => (Raise e, snd (container_start c (snd (containers_get c w))))
      end
  | Raise e => (Raise e, snd (containers_get c w))
  end.
Proof.
  cbn [start_each]. unfold bind. cbv zeta.
  change (fst (containers_get c w)) with (docker_get env (tick w) c).
  destruct (docker_get env (tick w) c) as [st|e]; [|reflexivity].
  change (fst (container_start c (snd (containers_get c w))))
    with (docker_start env (S (tick w)) c).
  destruct (docker_start env (S (tick w)) c); reflexivity.
Qed.





(** *** The monitoring cycle of [monitor_containers_wrapper] *)

Lemma check_container_eq (n : string) (w : World) :
  let s := should_check_container n w in
  let g := get_container_status n (snd s) in
  let v := verify_container_health n (snd g) in
  check_container n w =
  if fst s
  then if fst g then (tt, snd g)
       else if fst v then (tt, snd v)
            else primary_failure_path (snd v)
  else (tt, snd s).
Proof.
  cbv zeta. unfold check_container, bind, ret.
  destruct (should_check_container n w) as [[|] w1]; cbn [fst snd negb];
    [|reflexivity].
  destruct (get_container_status n w1) as [[|] w2]; cbn [fst snd negb];
    [reflexivity|].
  destruct (verify_container_health n w2) as [[|] w3]; reflexivity.
Qed.

Lemma primary_failure_path_acquisitions (w : World) :
  acquisitions (snd (primary_failure_path w)) = S (acquisitions w).
Proof.
  unfold primary_failure_path, bind. cbv zeta.
  rewrite lock_release_acquisitions, stop_notify_become_backup_acquisitions.
  apply lock_acquire_acquisitions.
Qed.

Lemma lock_acquire_steady (w : World) : steady w (snd (lock_acquire w)).
Proof.
  split; cbn; try reflexivity; try lia. eexists. reflexivity.
Qed.

Lemma lock_release_steady (w : World) : steady w (snd (lock_release w)).
Proof.
  split; cbn; try reflexivity; try lia. eexists. reflexivity.
Qed.

Lemma primary_failure_path_steady (w : World) :
  steady w (snd (primary_failure_path w)).
Proof.
  unfold primary_failure_path, bind. cbv zeta.
  eapply steady_trans; [apply lock_acquire_steady|].
  eapply steady_trans; [apply stop_notify_become_backup_steady|].
  apply lock_release_steady.
Qed.

(** A failover attempt is made for a container exactly when its failure
    is confirmed. *)
Lemma check_container_acquisitions (n : string) (w : World) :
  acquisitions (snd (check_container n w))
  = (acquisitions w + (if confirmed_down n w then 1 else 0))%nat.
Proof.
  rewrite check_container_eq. unfold confirmed_down. cbv zeta.
  pose proof (fr_acquisitions _ _ (should_check_container_frame n w)) as H1.
  set (w1 := snd (should_check_container n w)) in *.
  pose proof (fr_acquisitions _ _ (get_container_status_frame n w1)) as H2.
  set (w2 := snd (get_container_status n w1)) in *.
  pose proof (fr_acquisitions _ _ (verify_container_health_frame n w2)) as H3.
  set (w3 := snd (verify_container_health n w2)) in *.
  destruct (fst (should_check_container n w)); cbn [andb negb snd];
    [|lia].
  destruct (fst (get_container_status n w1)); cbn [andb negb snd]; [lia|].
  destruct (fst (verify_container_health n w2)); cbn [andb negb snd]; [lia|].
  rewrite primary_failure_path_acquisitions. lia.
Qed.

Lemma check_container_steady (n : string) (w : World) :
  steady w (snd (check_container n w)).
Proof.
  rewrite check_container_eq. cbv zeta.
  pose proof (frame_steady _ _ (should_check_container_frame n w)) as H1.
  set (w1 := snd (should_check_container n w)) in *.
  pose proof (frame_steady _ _ (get_container_status_frame n w1)) as H2.
  set (w2 := snd (get_container_status n w1)) in *.
  pose proof (frame_steady _ _ (verify_container_health_frame n w2)) as H3.
  set (w3 := snd (verify_container_health n w2)) in *.
  pose proof (steady_trans _ _ _ H1 H2) as H12.
  pose proof (steady_trans _ _ _ H12 H3) as H123.
  destruct (fst (should_check_container n w)); cbn [snd]; [|exact H1].
  destruct (fst (get_container_status n w1)); cbn [snd]; [exact H12|].
  destruct (fst (verify_container_health n w2)); cbn [snd]; [exact H123|].
  eapply steady_trans; [exact H123 | apply primary_failure_path_steady].
Qed.

(** Past the startup grace period the check of a container begins by
    looking the container up. *)
Lemma check_container_looks_up (n : string) (w : World) :
  ~ in_startup_grace w ->
  exists evs, trace (snd (check_container n w)) = trace w ++ DockerGet n :: evs.
Proof.
  intros Hg.
  assert (Hs : exists evs,
             trace (snd (should_check_container n w))
             = trace w ++ DockerGet n :: evs).
  { unfold in_startup_grace in Hg.
    unfold should_check_container, bind, time_time, gets, ret.
    cbn [fst snd].
    destruct (Z.ltb_spec (now w - container_start_time w)
                (seconds (startup_grace_period server_configs)));
      [contradiction|].
    exists []. unfold containers_get, external. cbn [fst snd].
    destruct (docker_get env (tick w) n) as [st|[|]]; reflexivity. }
  destruct Hs as [evs Hs].
  assert (Hrest : steady (snd (should_check_container n w))
                    (snd (check_container n w))).
  { rewrite check_container_eq. cbv zeta.
    set (w1 := snd (should_check_container n w)) in *.
    pose proof (frame_steady _ _ (get_container_status_frame n w1)) as H2.
    set (w2 := snd (get_container_status n w1)) in *.
    pose proof (frame_steady _ _ (verify_container_health_frame n w2)) as H3.
    set (w3 := snd (verify_container_health n w2)) in *.
    pose proof (steady_trans _ _ _ H2 H3) as H23.
    destruct (fst (should_check_container n w)); cbn [snd];
      [|apply steady_refl].
    destruct (fst (get_container_status n w1)); cbn [snd]; [exact H2|].
    destruct (fst (verify_container_health n w2)); cbn [snd]; [exact H23|].
    eapply steady_trans; [exact H23 | apply primary_failure_path_steady]. }
  destruct (st_trace _ _ Hrest) as [more Hmore].
  exists (evs ++ more). rewrite Hmore, Hs, <- app_assoc. reflexivity.
Qed.

Lemma for_each_cons (c : string) (rest : list string)
  (body : string -> M unit) (w : World) :
  for_each (c :: rest) body w = for_each rest body (snd (body c w)).
Proof. reflexivity. Qed.

Lemma cycle_acquisitions (cs : list string) (w : World) :
  acquisitions (snd (for_each cs check_container w))
  = (acquisitions w + confirmed_count cs w)%nat.
Proof.
  revert w. induction cs as [|c rest IH]; intros w.
  - cbn. lia.
  - rewrite for_each_cons, IH, check_container_acquisitions.
    cbn [confirmed_count]. lia.
Qed.

Lemma confirmed_count_le (cs : list string) (w : World) :
  (confirmed_count cs w <= length cs)%nat.
Proof.
  revert w. induction cs as [|c rest IH]; intros w; cbn [confirmed_count length].
  - lia.
  - specialize (IH (snd (check_container c w))).
    destruct (confirmed_down c w); lia.
Qed.

Lemma cycle_steady (cs : list string) (w : World) :
  steady w (snd (for_each cs check_container w)).
Proof.
  revert w. induction cs as [|c rest IH]; intros w.
  - apply steady_refl.
  - rewrite for_each_cons.
    eapply steady_trans; [apply check_container_steady | apply IH].
Qed.

Lemma steady_past_grace (w w' : World) :
  steady w w' -> ~ in_startup_grace w -> ~ in_startup_grace w'.
Proof.
  intros [Hs _ Hn _]. unfold in_startup_grace. rewrite Hs. lia.
Qed.

Lemma cycle_looks_up (cs : list string) (w : World) (c : string) :
  ~ in_startup_grace w -> In c cs ->
  exists before after,
    trace (snd (for_each cs check_container w))
    = trace w ++ before ++ DockerGet c :: after.
Proof.
  revert w. induction cs as [|c0 rest IH]; intros w Hg Hin; [destruct Hin|].
  rewrite for_each_cons.
  destruct Hin as [<-|Hin].
  - destruct (check_container_looks_up c0 w Hg) as [evs Hevs].
    destruct (st_trace _ _ (cycle_steady rest (snd (check_container c0 w))))
      as [more Hmore].
    exists [], (evs ++ more). rewrite Hmore, Hevs, <- app_assoc. reflexivity.
  - pose proof (check_container_steady c0 w) as Hst.
    destruct (IH _ (steady_past_grace _ _ Hst Hg) Hin)
      as (before & after & Htr).
    destruct (st_trace _ _ Hst) as [evs Hevs].
    exists (evs ++ before), after.
    rewrite Htr, Hevs, <- !app_assoc. reflexivity.
Qed.

(** C1, amended: a cycle of the primary health loop checks every owned
    container in listed order and does not stop at a confirmed failure.
    On a PRIMARY, the number of failover attempts of the cycle (times the
    failover lock is taken) is the number of containers whose failure the
    cycle confirmed, which is at most the number of owned containers; and
    when the startup grace period is over at the start of the cycle, each
    owned container is looked up during the cycle, those listed after a
    container whose failure was confirmed included. *)
Theorem monitoring_cycle_checks_every_container (w : World) :
  role w = PRIMARY ->
  let w' := snd (monitor_containers_wrapper_iteration w) in
  acquisitions w'
  = (acquisitions w + confirmed_count (containers config) w)%nat /\
  (confirmed_count (containers config) w <= length (containers config))%nat /\
  (~ in_startup_grace w ->
   forall c, In c (containers config) ->
     exists before after,
       trace w' = trace w ++ before ++ DockerGet c :: after).
Proof.
  intros Hr w'. subst w'.
  assert (Heq : monitor_containers_wrapper_iteration w
                = time_sleep 10
                    (snd (for_each (containers config) check_container w))).
  { unfold monitor_containers_wrapper_iteration, bind, gets, ret.
    cbn [fst snd]. rewrite Hr. reflexivity. }
  rewrite Heq. split; [|split].
  - rewrite time_sleep_acquisitions. apply cycle_acquisitions.
  - apply confirmed_count_le.
  - intros Hg c Hin.
    destruct (cycle_looks_up _ w c Hg Hin) as (before & after & Htr).
    exists before, (after ++ [Sleep 10]).
    unfold time_sleep. cbn [snd trace]. rewrite Htr, <- !app_assoc.
    reflexivity.
Qed.

(** *** The down-time map and the lock across the operations *)

Lemma tidy_refl (keys : list string) (w : World) : tidy keys w w.
Proof. split; [reflexivity | tauto]. Qed.

Lemma tidy_trans (keys : list string) (w1 w2 w3 : World) :
  tidy keys w1 w2 -> tidy keys w2 w3 -> tidy keys w1 w3.
Proof.
  intros [e1 p1] [e2 p2]. split.
  - intros n Hn. rewrite (e2 n Hn). apply e1. exact Hn.
  - tauto.
Qed.

Lemma tidy_weaken (keys keys' : list string) (w w' : World) :
  incl keys keys' -> tidy keys w w' -> tidy keys' w w'.
Proof.
  intros Hincl [e p]. split; [|exact p].
  intros n Hn. apply e. intros Hin. apply Hn, Hincl, Hin.
Qed.

Lemma lockless_refl (w : World) : lockless w w.
Proof. reflexivity. Qed.

Lemma lockless_trans (w1 w2 w3 : World) :
  lockless w1 w2 -> lockless w2 w3 -> lockless w1 w3.
Proof. unfold lockless. congruence. Qed.

Lemma lock_events_app (t : list Event) (ev : Event) :
  List.filter is_lock_event (t ++ [ev])
  = List.filter is_lock_event t ++ (if is_lock_event ev then [ev] else []).
Proof.
  rewrite List.filter_app. cbn [List.filter].
  destruct (is_lock_event ev); reflexivity.
Qed.

(** A step that leaves the down-time map alone and does not turn the
    clock back is tidy. *)
Lemma tidy_same_map (keys : list string) (w w' : World) :
  container_down_times w' = container_down_times w ->
  now w <= now w' ->
  tidy keys w w'.
Proof.
  intros Hm Hn. split.
  - intros n _. rewrite Hm. reflexivity.
  - intros [H0 Hp]. split; [lia|].
    intros n t Hl. rewrite Hm in Hl. specialize (Hp n t Hl). lia.
Qed.

Lemma external_tidy {A} (keys : list string) (ev : Event)
  (answer : nat -> A) :
  keeps (tidy keys) (external ev answer).
Proof.
  intros w. apply tidy_same_map; [reflexivity|].
  unfold external. cbn [snd now]. lia.
Qed.

Lemma external_lockless {A} (ev : Event) (answer : nat -> A) :
  is_lock_event ev = false -> keeps lockless (external ev answer).
Proof.
  intros Hev w. unfold lockless, lock_events, external. cbn [snd trace].
  rewrite lock_events_app, Hev. apply app_nil_r.
Qed.

Lemma time_sleep_tidy (keys : list string) (secs : Z) :
  0 <= secs -> keeps (tidy keys) (time_sleep secs).
Proof.
  intros Hs w. apply tidy_same_map; [reflexivity|].
  unfold time_sleep, seconds. cbn [snd now]. lia.
Qed.

Lemma time_sleep_lockless (secs : Z) : keeps lockless (time_sleep secs).
Proof.
  intros w. unfold lockless, lock_events, time_sleep. cbn [snd trace].
  rewrite lock_events_app. apply app_nil_r.
Qed.

Lemma modify_tidy (keys : list string) (f : World -> World) :
  (forall w, container_down_times (f w) = container_down_times w) ->
  (forall w, now (f w) = now w) ->
  keeps (tidy keys) (modify f).
Proof.
  intros Hm Hn w. apply tidy_same_map; cbn [modify snd];
    [apply Hm | rewrite Hn; lia].
Qed.

Lemma modify_lockless (f : World -> World) :
  (forall w, trace (f w) = trace w) -> keeps lockless (modify f).
Proof.
  intros Ht w. unfold lockless, lock_events. cbn [modify snd].
  rewrite Ht. reflexivity.
Qed.

Lemma down_times_getitem_tidy (keys : list string) (n : string) :
  In n keys -> keeps (tidy keys) (down_times_getitem n).
Proof.
  intros Hin w.
  destruct (down_times_getitem_spec n w)
    as (_ & _ & _ & _ & Hn & _ & _ & Hm).
  split.
  - intros n' Hn'. rewrite Hm.
    destruct (container_down_times w !! n); [reflexivity|].
    apply lookup_insert_ne. intros ->. contradiction.
  - intros [H0 Hp]. split; [lia|].
    intros n' t. rewrite Hm, Hn.
    destruct (container_down_times w !! n) eqn:E; [apply Hp|].
    rewrite lookup_insert. case_decide as Hd.
    + intros [= <-]. exact H0.
    + apply Hp.
Qed.

Lemma down_times_getitem_lockless (n : string) :
  keeps lockless (down_times_getitem n).
Proof.
  intros w. destruct (down_times_getitem_spec n w)
    as (_ & _ & _ & _ & _ & _ & Ht & _).
  unfold lockless, lock_events. rewrite Ht. reflexivity.
Qed.

Lemma get_container_status_tidy (keys : list string) (n : string) :
  In n keys -> keeps (tidy keys) (get_container_status n).
Proof.
  intros Hin w.
  destruct (get_container_status_spec n w)
    as (_ & _ & _ & _ & Hn & _ & _ & Hm).
  cbv zeta in Hm.
  set (w' := snd (get_container_status n w)) in *.
  assert (Hclock : now w <= now w') by lia.
  split.
  - intros n' Hn'. assert (Hne : n <> n') by (intros ->; contradiction).
    rewrite Hm.
    destruct (docker_get env (tick w) n) as [status|e]; [|reflexivity].
    destruct (String.eqb status "running").
    + apply lookup_delete_ne. exact Hne.
    + destruct (container_down_times w !! n); [reflexivity|].
      apply lookup_insert_ne. exact Hne.
  - intros [H0 Hp]. split; [lia|].
    intros n' t. rewrite Hm.
    assert (Hold : container_down_times w !! n' = Some t -> t <= now w').
    { intros Hl. specialize (Hp n' t Hl). lia. }
    destruct (docker_get env (tick w) n) as [status|e]; [|exact Hold].
    destruct (String.eqb status "running").
    + rewrite lookup_delete. case_decide; [discriminate | exact Hold].
    + destruct (container_down_times w !! n) eqn:E; [exact Hold|].
      rewrite lookup_insert. case_decide.
      * intros [= <-]. lia.
      * exact Hold.
Qed.

Lemma get_container_status_lockless (n : string) :
  keeps lockless (get_container_status n).
Proof.
  intros w. destruct (get_container_status_spec n w)
    as (_ & _ & _ & _ & _ & _ & Ht & _).
  unfold lockless, lock_events. rewrite Ht, lock_events_app. apply app_nil_r.
Qed.

Create HintDb tidy.
Create HintDb lockless.

Ltac tidy_step :=
  match goal with
  | |- keeps (tidy ?K) (bind _ _) =>
      apply (keeps_bind (tidy K) (tidy_trans K)); [|intros ?]
  | |- keeps (tidy ?K) (ret _) => apply (keeps_ret (tidy K) (tidy_refl K))
  | |- keeps (tidy ?K) (gets _) => apply (keeps_gets (tidy K) (tidy_refl K))
  | |- keeps (tidy ?K) time_time =>
      apply (keeps_gets (tidy K) (tidy_refl K))
  | |- keeps (tidy _) (external _ _) => apply external_tidy
  | |- keeps (tidy _) (time_sleep _) => apply time_sleep_tidy; cbv; discriminate
  | |- keeps (tidy _) (modify _) => apply modify_tidy; reflexivity
  | |- keeps (tidy _) (if ?b then _ else _) => destruct b
  | |- keeps (tidy _) (match ?x with _ => _ end) => destruct x
  | |- keeps (tidy _) _ => solve [auto with tidy]
  end.

Ltac tidy_auto := repeat tidy_step.

Ltac lockless_step :=
  match goal with
  | |- keeps lockless (bind _ _) =>
      apply (keeps_bind lockless lockless_trans); [|intros ?]
  | |- keeps lockless (ret _) => apply (keeps_ret lockless lockless_refl)
  | |- keeps lockless (gets _) => apply (keeps_gets lockless lockless_refl)
  | |- keeps lockless time_time => apply (keeps_gets lockless lockless_refl)
  | |- keeps lockless (external _ _) => apply external_lockless; reflexivity
  | |- keeps lockless (time_sleep _) => apply time_sleep_lockless
  | |- keeps lockless (modify _) => apply modify_lockless; reflexivity
  | |- keeps lockless (if ?b then _ else _) => destruct b
  | |- keeps lockless (match ?x with _ => _ end) => destruct x
  | |- keeps lockless _ => solve [auto with lockless]
  end.

Ltac lockless_auto := repeat lockless_step.

Hint Resolve get_container_status_tidy down_times_getitem_tidy : tidy.
Hint Resolve get_container_status_lockless down_times_getitem_lockless
  : lockless.

Lemma should_check_container_tidy (keys : list string) (n : string) :
  keeps (tidy keys) (should_check_container n).
Proof. unfold should_check_container, containers_get. tidy_auto. Qed.

Lemma should_check_container_lockless (n : string) :
  keeps lockless (should_check_container n).
Proof. unfold should_check_container, containers_get. lockless_auto. Qed.

Lemma all_running_tidy (keys cs : list string) :
  incl cs keys -> keeps (tidy keys) (all_running cs).
Proof.
  induction cs as [|c rest IH]; intros Hincl; cbn [all_running].
  - tidy_auto.
  - assert (Hc : In c keys) by (apply Hincl; left; reflexivity).
    assert (Hrest : keeps (tidy keys) (all_running rest)).
    { apply IH. intros x Hx. apply Hincl. right. exact Hx. }
    tidy_auto.
Qed.

Lemma all_running_lockless (cs : list string) :
  keeps lockless (all_running cs).
Proof. induction cs as [|c rest IH]; cbn [all_running]; lockless_auto. Qed.

Hint Resolve should_check_container_tidy all_running_tidy : tidy.
Hint Resolve should_check_container_lockless all_running_lockless : lockless.

Lemma wait_loop_tidy (keys : list string) (fuel : nat) (cs : list string)
  (start_time timeout : Z) :
  incl cs keys -> keeps (tidy keys) (wait_loop fuel cs start_time timeout).
Proof.
  intros Hincl. induction fuel as [|fuel IH]; cbn [wait_loop]; tidy_auto.
Qed.

Lemma wait_loop_lockless (fuel : nat) (cs : list string)
  (start_time timeout : Z) :
  keeps lockless (wait_loop fuel cs start_time timeout).
Proof. induction fuel as [|fuel IH]; cbn [wait_loop]; lockless_auto. Qed.

Hint Resolve wait_loop_tidy : tidy.
Hint Resolve wait_loop_lockless : lockless.

Lemma wait_for_containers_startup_tidy (keys cs : list string) (timeout : Z) :
  incl cs keys -> keeps (tidy keys) (wait_for_containers_startup cs timeout).
Proof. intros Hincl. unfold wait_for_containers_startup. tidy_auto. Qed.

Lemma wait_for_containers_startup_lockless (cs : list string) (timeout : Z) :
  keeps lockless (wait_for_containers_startup cs timeout).
Proof. unfold wait_for_containers_startup. lockless_auto. Qed.

Lemma stop_each_tidy (keys cs : list string) : keeps (tidy keys) (stop_each cs).
Proof.
  induction cs as [|c rest IH]; cbn [stop_each];
    unfold containers_get, container_stop; tidy_auto.
Qed.

Lemma stop_each_lockless (cs : list string) : keeps lockless (stop_each cs).
Proof.
  induction cs as [|c rest IH]; cbn [stop_each];
    unfold containers_get, container_stop; lockless_auto.
Qed.

Lemma start_each_tidy (keys cs : list string) :
  keeps (tidy keys) (start_each cs).
Proof.
  induction cs as [|c rest IH]; cbn [start_each];
    unfold containers_get, container_start; tidy_auto.
Qed.

Lemma start_each_lockless (cs : list string) : keeps lockless (start_each cs).
Proof.
  induction cs as [|c rest IH]; cbn [start_each];
    unfold containers_get, container_start; lockless_auto.
Qed.

Hint Resolve wait_for_containers_startup_tidy stop_each_tidy start_each_tidy
  : tidy.
Hint Resolve wait_for_containers_startup_lockless stop_each_lockless
  start_each_lockless : lockless.

Lemma stop_all_containers_tidy (keys cs : list string) :
  keeps (tidy keys) (stop_all_containers cs).
Proof. unfold stop_all_containers. tidy_auto. Qed.

Lemma stop_all_containers_lockless (cs : list string) :
  keeps lockless (stop_all_containers cs).
Proof. unfold stop_all_containers. lockless_auto. Qed.

Lemma start_all_containers_tidy (keys cs : list string) :
  incl cs keys -> keeps (tidy keys) (start_all_containers cs).
Proof. intros Hincl. unfold start_all_containers. tidy_auto. Qed.

Lemma start_all_containers_lockless (cs : list string) :
  keeps lockless (start_all_containers cs).
Proof. unfold start_all_containers. lockless_auto. Qed.

Lemma notify_other_server_tidy (keys : list string) :
  keeps (tidy keys) notify_other_server.
Proof. unfold notify_other_server, requests_post. tidy_auto. Qed.

Lemma notify_other_server_lockless : keeps lockless notify_other_server.
Proof. unfold notify_other_server, requests_post. lockless_auto. Qed.

Hint Resolve stop_all_containers_tidy start_all_containers_tidy
  notify_other_server_tidy : tidy.
Hint Resolve stop_all_containers_lockless start_all_containers_lockless
  notify_other_server_lockless : lockless.

Lemma become_backup_tidy (keys cs : list string) :
  keeps (tidy keys) (become_backup cs).
Proof. unfold become_backup. tidy_auto. Qed.

Lemma become_backup_lockless (cs : list string) :
  keeps lockless (become_backup cs).
Proof. unfold become_backup. lockless_auto. Qed.

Lemma become_primary_tidy (keys cs : list string) :
  incl cs keys -> keeps (tidy keys) (become_primary cs).
Proof. intros Hincl. unfold become_primary. tidy_auto. Qed.

Lemma become_primary_lockless (cs : list string) :
  keeps lockless (become_primary cs).
Proof. unfold become_primary. lockless_auto. Qed.

Hint Resolve become_backup_tidy become_primary_tidy : tidy.
Hint Resolve become_backup_lockless become_primary_lockless : lockless.

Lemma stop_notify_become_backup_tidy (keys cs : list string) :
  keeps (tidy keys) (stop_notify_become_backup cs).
Proof. unfold stop_notify_become_backup. tidy_auto. Qed.

Lemma stop_notify_become_backup_lockless (cs : list string) :
  keeps lockless (stop_notify_become_backup cs).
Proof. unfold stop_notify_become_backup. lockless_auto. Qed.

Lemma poll_loop_tidy (keys : list string) (n : string) (l : list Z) :
  In n keys -> keeps (tidy keys) (poll_loop n l).
Proof.
  intros Hin. induction l as [|i rest IH]; cbn [poll_loop]; tidy_auto.
Qed.

Lemma poll_loop_lockless (n : string) (l : list Z) :
  keeps lockless (poll_loop n l).
Proof. induction l as [|i rest IH]; cbn [poll_loop]; lockless_auto. Qed.

Hint Resolve stop_notify_become_backup_tidy poll_loop_tidy : tidy.
Hint Resolve stop_notify_become_backup_lockless poll_loop_lockless : lockless.

Lemma verify_container_health_tidy (keys : list string) (n : string) :
  In n keys -> keeps (tidy keys) (verify_container_health n).
Proof.
  intros Hin. unfold verify_container_health, down_times_contains.
  tidy_auto.
Qed.

Lemma verify_container_health_lockless (n : string) :
  keeps lockless (verify_container_health n).
Proof.
  unfold verify_container_health, down_times_contains. lockless_auto.
Qed.

Lemma primary_failure_path_tidy (keys : list string) :
  keeps (tidy keys) primary_failure_path.
Proof.
  unfold primary_failure_path, lock_acquire, lock_release. tidy_auto.
Qed.

Hint Resolve verify_container_health_tidy primary_failure_path_tidy : tidy.
Hint Resolve verify_container_health_lockless : lockless.

Lemma check_container_tidy (keys : list string) (n : string) :
  In n keys -> keeps (tidy keys) (check_container n).
Proof. intros Hin. unfold check_container. tidy_auto. Qed.

Lemma cycle_tidy (keys cs : list string) :
  incl cs keys -> keeps (tidy keys) (for_each cs check_container).
Proof.
  induction cs as [|c rest IH]; intros Hincl; cbn [for_each].
  - tidy_auto.
  - assert (Hc : keeps (tidy keys) (check_container c)).
    { apply check_container_tidy, Hincl. left. reflexivity. }
    assert (Hrest : keeps (tidy keys) (for_each rest check_container)).
    { apply IH. intros x Hx. apply Hincl. right. exact Hx. }
    tidy_auto.
Qed.

Lemma monitor_containers_wrapper_iteration_tidy (keys : list string) :
  incl (containers config) keys ->
  keeps (tidy keys) monitor_containers_wrapper_iteration.
Proof.
  intros Hincl. pose proof (cycle_tidy keys _ Hincl) as Hc.
  unfold monitor_containers_wrapper_iteration. tidy_auto.
Qed.

(** *** Stopping and starting lists of containers *)

Lemma stop_each_cons (c : string) (rest : list string) (w : World) :
  stop_each (c :: rest) w =
  match docker_get env (tick w) c with
  | Ok _ =>
      match docker_stop env (S (tick w)) c with
      | Ok _ => stop_each rest (snd (container_stop c (snd (containers_get c w))))
      | Raise e => (Raise e, snd (container_stop c (snd (containers_get c w))))
      end
  | Raise e => (Raise e, snd (containers_get c w))
  end.
Proof.
  cbn [stop_each]. unfold bind. cbv zeta.
  change (fst (containers_get c w)) with (docker_get env (tick w) c).
  destruct (docker_get env (tick w) c) as [st|e]; [|reflexivity].
  change (fst (container_stop c (snd (containers_get c w))))
    with (docker_stop env (S (tick w)) c).
  destruct (docker_stop env (S (tick w)) c); reflexivity.
Qed.

Lemma stop_each_ok_iff (cs : list string) (w : World) :
  (fst (stop_each cs w) = Ok tt <->
   forall (i : nat) (c : string),
     cs !! i = Some c ->
     (exists st, docker_get env (tick w + 2 * i)%nat c = Ok st) /\
     docker_stop env (S (tick w + 2 * i)) c = Ok tt) /\
  (fst (stop_each cs w) = Ok tt ->
   trace (snd (stop_each cs w)) = trace w ++ stop_events cs /\
   tick (snd (stop_each cs w)) = (tick w + 2 * length cs)%nat).
Proof.
  revert w. induction cs as [|c rest IH]; intros w.
  - split.
    + split; [intros _ i c' H; discriminate | reflexivity].
    + intros _. cbn. split; [symmetry; apply app_nil_r | lia].
  - rewrite stop_each_cons.
    set (w2 := snd (container_stop c (snd (containers_get c w)))).
    assert (Ht2 : tick w2 = S (S (tick w))) by reflexivity.
    assert (Htr : trace w2 = trace w ++ [DockerGet c; DockerStop c]).
    { subst w2. cbn. rewrite <- app_assoc. reflexivity. }
    destruct (docker_get env (tick w) c) as [st|e] eqn:Eg.
    + destruct (docker_stop env (S (tick w)) c) as [[]|e] eqn:Es.
      * destruct (IH w2) as [Hiff Htrace]. split.
        -- rewrite Hiff, Ht2. split.
           ++ intros H [|i] c' Hl.
              ** injection Hl as <-.
                 replace (tick w + 2 * 0)%nat with (tick w) by lia.
                 split; [eexists; exact Eg | exact Es].
              ** replace (tick w + 2 * S i)%nat
                   with (S (S (tick w)) + 2 * i)%nat by lia.
                 apply H. exact Hl.
           ++ intros H i c' Hl.
              replace (S (S (tick w)) + 2 * i)%nat
                with (tick w + 2 * S i)%nat by lia.
              apply (H (S i)). exact Hl.
        -- intros Hok. destruct (Htrace Hok) as [Ha Hb]. split.
           ++ rewrite Ha, Htr, <- app_assoc. reflexivity.
           ++ rewrite Hb, Ht2. cbn [length]. lia.
      * cbn [fst]. split; [|discriminate].
        split; [discriminate|]. intros H.
        destruct (H 0%nat c eq_refl) as [_ Hs].
        replace (tick w + 2 * 0)%nat with (tick w) in Hs by lia.
        rewrite Es in Hs. discriminate.
    + cbn [fst]. split; [|discriminate].
      split; [discriminate|]. intros H.
      destruct (H 0%nat c eq_refl) as [[st Hg] _].
      replace (tick w + 2 * 0)%nat with (tick w) in Hg by lia.
      rewrite Eg in Hg. discriminate.
Qed.

Lemma stop_all_containers_eq (cs : list string) (w : World) :
  stop_all_containers cs w =
  (match fst (stop_each cs w) with Ok _ => true | Raise _ => false end,
   snd (stop_each cs w)).
Proof.
  unfold stop_all_containers, bind, ret. cbv zeta.
  destruct (fst (stop_each cs w)); reflexivity.
Qed.

Lemma stop_each_app (l1 l2 : list string) (w : World) :
  stop_each (l1 ++ l2) w =
  match fst (stop_each l1 w) with
  | Ok _ => stop_each l2 (snd (stop_each l1 w))
  | Raise e => stop_each l1 w
  end.
Proof.
  revert w. induction l1 as [|c rest IH]; intros w.
  - reflexivity.
  - cbn [app]. rewrite !stop_each_cons.
    destruct (docker_get env (tick w) c) as [st|e]; [|reflexivity].
    destruct (docker_stop env (S (tick w)) c) as [[]|e]; [|reflexivity].
    apply IH.
Qed.

Lemma start_each_app (l1 l2 : list string) (w : World) :
  start_each (l1 ++ l2) w =
  match fst (start_each l1 w) with
  | Ok _ => start_each l2 (snd (start_each l1 w))
  | Raise e => start_each l1 w
  end.
Proof.
  revert w. induction l1 as [|c rest IH]; intros w.
  - reflexivity.
  - cbn [app]. rewrite !start_each_cons.
    destruct (docker_get env (tick w) c) as [st|e]; [|reflexivity].
    destruct (docker_start env (S (tick w)) c) as [[]|e]; [|reflexivity].
    apply IH.
Qed.

(** X1: [stop_all_containers] returns [True] exactly when the container
    engine finds and stops every container of the list (whatever the
    status of a container found).  It has then looked up and stopped each
    container once, in listed order, by two external calls per container;
    on the empty list that is no call at all. *)
Theorem stop_all_containers_ok_iff (cs : list string) (w : World) :
  (fst (stop_all_containers cs w) = true <->
   forall (i : nat) (c : string),
     cs !! i = Some c ->
     (exists st, docker_get env (tick w + 2 * i)%nat c = Ok st) /\
     docker_stop env (S (tick w + 2 * i)) c = Ok tt) /\
  (fst (stop_all_containers cs w) = true ->
   trace (snd (stop_all_containers cs w)) = trace w ++ stop_events cs /\
   tick (snd (stop_all_containers cs w)) = (tick w + 2 * length cs)%nat) /\
  stop_all_containers [] w = (true, w).
Proof.
  rewrite stop_all_containers_eq. cbn [fst snd].
  destruct (stop_each_ok_iff cs w) as [Hiff Htrace].
  destruct (fst (stop_each cs w)) as [[]|e] eqn:E.
  - split; [|split; [|reflexivity]].
    + split; [intros _; apply Hiff; reflexivity | reflexivity].
    + intros _. apply Htrace. reflexivity.
  - split; [|split; [discriminate | reflexivity]].
    split; [discriminate|]. intros H. apply Hiff in H. discriminate.
Qed.

(** X2: stopping a list of containers is stopping its first part and, only
    when that succeeded, its second part from the world the first part
    left.  When the first part fails the result is that of the first part
    alone: the containers after the failing one are neither looked up nor
    stopped. *)
Theorem stop_all_containers_app (l1 l2 : list string) (w : World) :
  stop_all_containers (l1 ++ l2) w =
  if fst (stop_all_containers l1 w)
  then stop_all_containers l2 (snd (stop_all_containers l1 w))
  else stop_all_containers l1 w.
Proof.
  rewrite !stop_all_containers_eq, stop_each_app. cbn [fst snd].
  destruct (fst (stop_each l1 w)) as [[]|e] eqn:E.
  - reflexivity.
  - rewrite E. reflexivity.
Qed.

(** X3: when a lookup or start call of [start_all_containers] raises, the
    function returns [False] at once: the containers listed after the
    failing one are not touched, there is no wait (the world is the one
    the failing call left), and [container_start_time] is not updated, so
    no startup grace period begins. *)
Theorem start_all_containers_failed_start (l1 l2 : list string) (w : World)
  (e : Exn) :
  fst (start_each l1 w) = Raise e ->
  start_all_containers (l1 ++ l2) w = (false, snd (start_each l1 w)) /\
  container_start_time (snd (start_all_containers (l1 ++ l2) w))
  = container_start_time w /\
  role (snd (start_all_containers (l1 ++ l2) w)) = role w.
Proof.
  intros Hfail.
  assert (Heq : start_all_containers (l1 ++ l2) w
                = (false, snd (start_each l1 w))).
  { rewrite start_all_containers_eq, start_each_app, Hfail, Hfail.
    reflexivity. }
  rewrite Heq. cbn [snd]. split; [reflexivity|].
  pose proof (start_each_frame l1 w) as [Hr Hs _ _ _ _].
  split; assumption.
Qed.

(** X4: [become_backup] always leaves the role BACKUP, also when stopping
    the containers fails; it leaves the down-time map, the start time and
    the heartbeat stamp as they were and does not touch the lock. *)
Theorem become_backup_always_backup (cs : list string) (w : World) :
  role (snd (become_backup cs w)) = BACKUP /\
  container_down_times (snd (become_backup cs w)) = container_down_times w /\
  container_start_time (snd (become_backup cs w)) = container_start_time w /\
  last_heartbeat (snd (become_backup cs w)) = last_heartbeat w /\
  lock_events (snd (become_backup cs w)) = lock_events w.
Proof.
  split; [apply become_backup_role|].
  split.
  { apply map_eq. intros n.
    apply (td_entries _ _ _ (become_backup_tidy [] cs w)). intros []. }
  pose proof (become_backup_steady cs w) as [Hs Hh _ _].
  split; [exact Hs|]. split; [exact Hh|].
  apply become_backup_lockless.
Qed.

(** *** The endpoints and the heartbeat loops *)

Lemma lock_acquire_lock_events (w : World) :
  lock_events (snd (lock_acquire w)) = lock_events w ++ [LockAcquire].
Proof.
  unfold lock_events, lock_acquire, modify. cbn [snd trace].
  apply lock_events_app.
Qed.

Lemma lock_release_lock_events (w : World) :
  lock_events (snd (lock_release w)) = lock_events w ++ [LockRelease].
Proof.
  unfold lock_events, lock_release, modify. cbn [snd trace].
  apply lock_events_app.
Qed.

(** The lock events of a computation run under the failover lock. *)
Lemma under_lock_lock_events {A} (m : M A) (w : World) :
  keeps lockless m ->
  lock_events (snd (lock_release (snd (m (snd (lock_acquire w))))))
  = lock_events w ++ [LockAcquire; LockRelease].
Proof.
  intros Hm. rewrite lock_release_lock_events, (Hm (snd (lock_acquire w))),
    lock_acquire_lock_events, <- app_assoc. reflexivity.
Qed.

Lemma start_all_containers_first_lookup (c : string) (rest : list string)
  (w : World) :
  exists evs,
    trace (snd (start_all_containers (c :: rest) w))
    = trace w ++ DockerGet c :: evs.
Proof.
  pose proof (start_each_app [c] rest w) as Happ. cbn [app] in Happ.
  assert (Hfirst : exists evs,
             trace (snd (start_each [c] w)) = trace w ++ DockerGet c :: evs).
  { rewrite start_each_cons.
    destruct (docker_get env (tick w) c) as [st|e].
    - exists [DockerStart c].
      destruct (docker_start env (S (tick w)) c) as [[]|e]; cbn;
        rewrite <- app_assoc; reflexivity.
    - exists []. reflexivity. }
  destruct Hfirst as [evs1 H1].
  assert (Hall : exists evs,
             trace (snd (start_each (c :: rest) w))
             = trace w ++ DockerGet c :: evs).
  { rewrite Happ. destruct (fst (start_each [c] w)).
    - destruct (fr_trace _ _ (start_each_frame rest (snd (start_each [c] w))))
        as [evs2 H2].
      exists (evs1 ++ evs2). rewrite H2, H1, <- app_assoc. reflexivity.
    - exists evs1. exact H1. }
  destruct Hall as [evs Hevs].
  rewrite start_all_containers_eq.
  destruct (fst (start_each (c :: rest) w)); cbn [snd].
  - destruct (fr_trace _ _ (wait_for_containers_startup_frame (c :: rest) 300
                              (started_world (c :: rest) w))) as [evs3 H3].
    exists (evs ++ evs3). rewrite H3.
    change (trace (started_world (c :: rest) w))
      with (trace (snd (start_each (c :: rest) w))).
    rewrite Hevs, <- app_assoc. reflexivity.
  - exists evs. exact Hevs.
Qed.

Lemma become_primary_endpoint_eq (request : gmap string string) (w : World) :
  become_primary_endpoint request w =
  if server_name_given request
  then (if fst (become_primary (containers config) (snd (lock_acquire w)))
        then 200 else 500,
        snd (lock_release
               (snd (become_primary (containers config)
                       (snd (lock_acquire w))))))
  else (400, w).
Proof.
  unfold become_primary_endpoint.
  destruct (server_name_given request); [|reflexivity].
  cbn [negb]. unfold bind, ret. cbv zeta.
  destruct (fst (become_primary (containers config)
                   (snd (lock_acquire w)))); reflexivity.
Qed.

(** X5: the [/become_primary] endpoint.  A request without a server name
    (missing or empty) is answered 400 and changes nothing.  Any other
    request is served whatever the current role: the lock is taken and
    released once, the answer is 200 when [become_primary] returned
    [True] and 500 otherwise, the role is PRIMARY afterwards in both
    cases, and the first owned container is looked up again even on a
    node that was already PRIMARY. *)
Theorem become_primary_endpoint_spec (request : gmap string string)
  (w : World) :
  (server_name_given request = false ->
   become_primary_endpoint request w = (400, w)) /\
  (server_name_given request = true ->
   fst (become_primary_endpoint request w)
   = (if fst (become_primary (containers config) (snd (lock_acquire w)))
      then 200 else 500) /\
   role (snd (become_primary_endpoint request w)) = PRIMARY /\
   lock_events (snd (become_primary_endpoint request w))
   = lock_events w ++ [LockAcquire; LockRelease] /\
   forall c rest,
     containers config = c :: rest ->
     exists evs,
       trace (snd (become_primary_endpoint request w))
       = trace w ++ LockAcquire :: DockerGet c :: evs).
Proof.
  rewrite become_primary_endpoint_eq.
  split; intros Hname; rewrite Hname; [reflexivity|].
  cbn [fst snd]. split; [reflexivity|]. split; [|split].
  - change (role (snd (lock_release ?x))) with (role x).
    apply become_primary_role.
  - apply (under_lock_lock_events (become_primary (containers config))).
    apply become_primary_lockless.
  - intros c rest Hcs. rewrite Hcs, become_primary_eq.
    destruct (start_all_containers_first_lookup c rest
                (set_role PRIMARY (snd (lock_acquire w)))) as [evs Hevs].
    exists (evs ++ [LockRelease]).
    unfold lock_release, modify. cbn [snd trace]. rewrite Hevs.
    cbn [set_role lock_acquire modify snd trace].
    rewrite <- !app_assoc. reflexivity.
Qed.

Lemma receive_heartbeat_eq (request : gmap string string) (w : World) :
  receive_heartbeat request w =
  if server_name_given request
  then (200, set_last_heartbeat (now w) w)
  else (400, w).
Proof.
  unfold receive_heartbeat. destruct (server_name_given request); reflexivity.
Qed.

(** X6: a heartbeat request without a server name is answered 400 and
    changes nothing, so it does not postpone a failover.  A heartbeat with
    a name is accepted whatever the role, and only sets the heartbeat
    stamp to the clock reading; as long as the stamp stays and the clock
    is at most the heartbeat timeout past it, an iteration of the
    staleness loop only sleeps. *)
Theorem heartbeat_resets_staleness (request : gmap string string)
  (w : World) :
  (server_name_given request = false ->
   receive_heartbeat request w = (400, w)) /\
  (server_name_given request = true ->
   receive_heartbeat request w = (200, set_last_heartbeat (now w) w) /\
   forall w2,
     last_heartbeat w2 = last_heartbeat (snd (receive_heartbeat request w)) ->
     now w2 - now w <= seconds (heartbeat_timeout server_configs) ->
     check_heartbeat_iteration w2
     = time_sleep (check_heartbeat_interval server_configs) w2).
Proof.
  rewrite receive_heartbeat_eq.
  split; intros Hname; rewrite Hname; [reflexivity|].
  split; [reflexivity|]. cbn [snd set_last_heartbeat last_heartbeat].
  intros w2 Hstamp Hclock. rewrite check_heartbeat_iteration_eq, Hstamp.
  destruct (Z.ltb_spec (seconds (heartbeat_timeout server_configs))
              (now w2 - now w)) as [Hlt|_]; [lia|].
  rewrite andb_false_r. reflexivity.
Qed.

(** X7: a takeover is never retried.  After [initiate_failover] the role
    is PRIMARY whether or not the containers came up, so a second
    [initiate_failover] returns [False] without any external call, and
    the next iteration of the staleness loop only sleeps. *)
Theorem takeover_not_retried (w : World) :
  let w1 := snd (initiate_failover w) in
  role w1 = PRIMARY /\
  fst (initiate_failover w1) = false /\
  tick (snd (initiate_failover w1)) = tick w1 /\
  trace (snd (initiate_failover w1))
  = trace w1 ++ [LockAcquire; LockRelease] /\
  check_heartbeat_iteration w1
  = time_sleep (check_heartbeat_interval server_configs) w1.
Proof.
  cbv zeta.
  assert (Hrole : role (snd (initiate_failover w)) = PRIMARY).
  { rewrite initiate_failover_eq.
    destruct (ServerRole_eqb (role w) BACKUP) eqn:E; cbn [snd].
    - change (role (snd (lock_release ?x))) with (role x).
      apply become_primary_role.
    - cbn. destruct (role w); [reflexivity | discriminate]. }
  split; [exact Hrole|].
  set (w1 := snd (initiate_failover w)) in *.
  rewrite initiate_failover_eq, check_heartbeat_iteration_eq, Hrole.
  cbn [ServerRole_eqb andb fst snd].
  repeat split; try reflexivity.
  cbn. rewrite <- app_assoc. reflexivity.
Qed.

Lemma send_heartbeat_iteration_eq (w : World) :
  send_heartbeat_iteration w =
  time_sleep (heartbeat_interval server_configs)
    (if ServerRole_eqb (role w) PRIMARY
     then snd (requests_post "/heartbeat" w) else w).
Proof.
  unfold send_heartbeat_iteration, bind, gets, ret. cbn [fst snd].
  destruct (ServerRole_eqb (role w) PRIMARY); reflexivity.
Qed.

(** *** Invariants of the down-time map *)

Lemma initiate_failover_tidy (keys : list string) :
  incl (containers config) keys -> keeps (tidy keys) initiate_failover.
Proof.
  intros Hincl. unfold initiate_failover, lock_acquire, lock_release.
  tidy_auto.
Qed.

Lemma become_primary_endpoint_tidy (keys : list string)
  (request : gmap string string) :
  incl (containers config) keys ->
  keeps (tidy keys) (become_primary_endpoint request).
Proof.
  intros Hincl. unfold become_primary_endpoint, lock_acquire, lock_release.
  tidy_auto.
Qed.

(** X9: checking one container never changes the down-time entry of
    another: [get_container_status], [verify_container_health] and the
    whole check of the monitoring loop, failure path included, leave the
    entry of every other container as it was. *)
Theorem status_checks_touch_own_entry (n n' : string) (w : World) :
  n' <> n ->
  container_down_times (snd (get_container_status n w)) !! n'
  = container_down_times w !! n' /\
  container_down_times (snd (verify_container_health n w)) !! n'
  = container_down_times w !! n' /\
  container_down_times (snd (check_container n w)) !! n'
  = container_down_times w !! n'.
Proof.
  intros Hne.
  assert (Hnot : ~ In n' [n]).
  { intros [H|[]]. apply Hne. symmetry. exact H. }
  assert (Hin : In n [n]) by (left; reflexivity).
  split; [|split].
  - apply (td_entries _ _ _ (get_container_status_tidy [n] n Hin w)), Hnot.
  - apply (td_entries _ _ _ (verify_container_health_tidy [n] n Hin w)), Hnot.
  - apply (td_entries _ _ _ (check_container_tidy [n] n Hin w)), Hnot.
Qed.

(** X10: the agent records down times for its owned containers only.  An
    iteration of the monitoring loop, a failover and a request to become
    primary leave the entry of every container that is not owned as it
    was; the failure path itself (stop, notify, become backup) changes no
    entry at all. *)
Theorem down_times_of_owned_containers_only (n' : string) (w : World)
  (request : gmap string string) :
  ~ In n' (containers config) ->
  container_down_times (snd (monitor_containers_wrapper_iteration w)) !! n'
  = container_down_times w !! n' /\
  container_down_times (snd (initiate_failover w)) !! n'
  = container_down_times w !! n' /\
  container_down_times (snd (become_primary_endpoint request w)) !! n'
  = container_down_times w !! n' /\
  container_down_times (snd (primary_failure_path w))
  = container_down_times w.
Proof.
  intros Hnot.
  pose proof (incl_refl (containers config)) as Hincl.
  split; [|split; [|split]].
  - apply (td_entries _ _ _
             (monitor_containers_wrapper_iteration_tidy _ Hincl w)), Hnot.
  - apply (td_entries _ _ _ (initiate_failover_tidy _ Hincl w)), Hnot.
  - apply (td_entries _ _ _
             (become_primary_endpoint_tidy _ request Hincl w)), Hnot.
  - apply map_eq. intros n.
    apply (td_entries _ _ _ (primary_failure_path_tidy [] w)). intros [].
Qed.

(** X11: recorded down times never lie in the future.  If the clock is
    not before the epoch and every stamp of the down-time map is at most
    the clock reading, the same holds after a status check, after a
    health verification (also when its final read stores the default 0),
    after an iteration of the monitoring loop, after a failover and after
    a request to become primary. *)
Theorem stamps_stay_in_the_past (n : string) (w : World)
  (request : gmap string string) :
  stamps_past w ->
  stamps_past (snd (get_container_status n w)) /\
  stamps_past (snd (verify_container_health n w)) /\
  stamps_past (snd (monitor_containers_wrapper_iteration w)) /\
  stamps_past (snd (initiate_failover w)) /\
  stamps_past (snd (become_primary_endpoint request w)).
Proof.
  intros Hp.
  pose proof (incl_refl (containers config)) as Hincl.
  assert (Hin : In n [n]) by (left; reflexivity).
  split; [|split; [|split; [|split]]].
  - apply (td_past _ _ _ (get_container_status_tidy [n] n Hin w)), Hp.
  - apply (td_past _ _ _ (verify_container_health_tidy [n] n Hin w)), Hp.
  - apply (td_past _ _ _
             (monitor_containers_wrapper_iteration_tidy _ Hincl w)), Hp.
  - apply (td_past _ _ _ (initiate_failover_tidy _ Hincl w)), Hp.
  - apply (td_past _ _ _
             (become_primary_endpoint_tidy _ request Hincl w)), Hp.
Qed.

(** *** Bounds on the health verification *)

(** X12: [verify_container_health] makes at most three lookups, all of
    its own container, with at most two sleeps of 5 s between them: the
    events it appends are none, one lookup, two, or three.  It takes no
    lock and changes neither the role nor the start time. *)
Theorem verify_container_health_bounded (n : string) (w : World) :
  let w' := snd (verify_container_health n w) in
  (exists evs,
      trace w' = trace w ++ evs /\
      In evs [[];
              [DockerGet n];
              [DockerGet n; Sleep check_interval; DockerGet n];
              polls_trace n]) /\
  (tick w' <= tick w + 3)%nat /\
  lock_events w' = lock_events w /\
  role w' = role w /\
  container_start_time w' = container_start_time w.
Proof.
  cbv zeta.
  pose proof (verify_container_health_frame n w) as [Hr Hs _ _ _ _].
  pose proof (verify_container_health_lockless n w) as Hl.
  split; [|split; [|split; [exact Hl | split; assumption]]].
  - rewrite verify_container_health_eq.
    assert (Hearly : exists evs,
               trace (snd (true, w)) = trace w ++ evs /\
               In evs [[]; [DockerGet n];
                       [DockerGet n; Sleep check_interval; DockerGet n];
                       polls_trace n]).
    { exists []. split; [symmetry; apply app_nil_r | left; reflexivity]. }
    assert (Hlate : exists evs,
               trace (snd (verify_after_grace n w)) = trace w ++ evs /\
               In evs [[]; [DockerGet n];
                       [DockerGet n; Sleep check_interval; DockerGet n];
                       polls_trace n]).
    { unfold verify_after_grace. cbv zeta.
      assert (Hpoll : exists evs,
                 trace (snd (poll_loop n (range consecutive_checks) w))
                 = trace w ++ evs /\
                 In evs [[]; [DockerGet n];
                         [DockerGet n; Sleep check_interval; DockerGet n];
                         polls_trace n]).
      { change (range consecutive_checks) with [0; 1; 2].
        rewrite !poll_loop_cons, poll_loop_nil.
        change (0 <? consecutive_checks - 1) with true.
        change (1 <? consecutive_checks - 1) with true.
        change (2 <? consecutive_checks - 1) with false.
        cbv iota.
        destruct (get_container_status_spec n w)
          as (_ & _ & _ & _ & _ & _ & Ht0 & _).
        destruct (is_running (docker_get env (tick w) n)).
        { exists [DockerGet n]. split; [exact Ht0 | right; left; reflexivity]. }
        set (s1 := snd (time_sleep check_interval (after_poll_down n w))).
        destruct (get_container_status_spec n s1)
          as (_ & _ & _ & _ & _ & _ & Ht1 & _).
        destruct (is_running (docker_get env (tick s1) n)).
        { exists [DockerGet n; Sleep check_interval; DockerGet n].
          split; [|right; right; left; reflexivity].
          cbn [snd]. rewrite Ht1. subst s1. cbn.
          rewrite <- !app_assoc. reflexivity. }
        set (s2 := snd (time_sleep check_interval (after_poll_down n s1))).
        exists (polls_trace n). split; [|right; right; right; left; reflexivity].
        destruct (get_container_status_spec n s2)
          as (_ & _ & _ & _ & _ & _ & Ht2 & _).
        destruct (is_running (docker_get env (tick s2) n)); cbn [snd].
        - rewrite Ht2. subst s2 s1. cbn. rewrite <- !app_assoc. reflexivity.
        - subst s2 s1. cbn. rewrite <- !app_assoc. reflexivity. }
      destruct Hpoll as (evs & Htr & Hin).
      destruct (fst (poll_loop n (range consecutive_checks) w)); cbn [snd].
      - exists evs. split; assumption.
      - match goal with |- context [down_times_getitem n ?s] =>
          destruct (down_times_getitem_spec n s)
            as (_ & _ & _ & _ & _ & _ & Htg & _)
        end.
        exists evs. rewrite Htg. split; assumption. }
    destruct (container_down_times w !! n) as [t|]; [|exact Hlate].
    destruct (now w - t <? seconds (restart_grace_period server_configs));
      [exact Hearly | exact Hlate].
  - rewrite verify_container_health_eq.
    assert (Hlate : (tick (snd (verify_after_grace n w)) <= tick w + 3)%nat).
    { unfold verify_after_grace. cbv zeta.
      assert (Hpoll : (tick (snd (poll_loop n (range consecutive_checks) w))
                       <= tick w + 3)%nat).
      { change (range consecutive_checks) with [0; 1; 2].
        rewrite !poll_loop_cons, poll_loop_nil.
        change (0 <? consecutive_checks - 1) with true.
        change (1 <? consecutive_checks - 1) with true.
        change (2 <? consecutive_checks - 1) with false.
        cbv iota.
        destruct (get_container_status_spec n w)
          as (_ & _ & _ & _ & _ & Hk0 & _).
        destruct (is_running (docker_get env (tick w) n));
          [cbn [snd]; lia|].
        set (s1 := snd (time_sleep check_interval (after_poll_down n w))).
        assert (Hs1 : tick s1 = S (tick w)) by reflexivity.
        destruct (get_container_status_spec n s1)
          as (_ & _ & _ & _ & _ & Hk1 & _).
        destruct (is_running (docker_get env (tick s1) n));
          [cbn [snd]; lia|].
        set (s2 := snd (time_sleep check_interval (after_poll_down n s1))).
        assert (Hs2 : tick s2 = S (tick s1)) by reflexivity.
        destruct (get_container_status_spec n s2)
          as (_ & _ & _ & _ & _ & Hk2 & _).
        destruct (is_running (docker_get env (tick s2) n)); cbn [snd];
          [lia|].
        change (tick (after_poll_down n s2)) with (S (tick s2)). lia. }
      destruct (fst (poll_loop n (range consecutive_checks) w)); cbn [snd];
        [exact Hpoll|].
      match goal with |- context [down_times_getitem n ?s] =>
        destruct (down_times_getitem_spec n s)
          as (_ & _ & _ & _ & _ & Htk & _)
      end.
      rewrite Htk. exact Hpoll. }
    destruct (container_down_times w !! n) as [t|]; [|exact Hlate].
    destruct (now w - t <? seconds (restart_grace_period server_configs));
      [cbn [snd]; lia | exact Hlate].
Qed.

(** *** The wait for the containers *)

Lemma wait_loop_false_elapsed (fuel : nat) (cs : list string)
  (start_time timeout : Z) (w : World) :
  fst (wait_loop fuel cs start_time timeout w) = Some false ->
  seconds timeout
  <= now (snd (wait_loop fuel cs start_time timeout w)) - start_time.
Proof.
  revert w. induction fuel as [|fuel IH]; intros w.
  - cbn. discriminate.
  - rewrite wait_loop_succ.
    destruct (Z.ltb_spec (now w - start_time) (seconds timeout)) as [Hin|Hout].
    + destruct (fst (all_running cs w)); [cbn; discriminate | apply IH].
    + cbn [fst snd]. intros _. exact Hout.
Qed.

Lemma wait_for_containers_startup_eq (cs : list string) (timeout : Z)
  (w : World) :
  wait_for_containers_startup cs timeout w =
  (match fst (wait_loop (wait_fuel timeout) cs (now w) timeout w) with
   | Some b => b
   | None => false
   end,
   snd (wait_loop (wait_fuel timeout) cs (now w) timeout w)).
Proof. reflexivity. Qed.

(** X13: the wait gives up only after the timeout.  When
    [wait_for_containers_startup] returns [False] the clock has advanced
    by at least the timeout since the call; until then the loop keeps
    polling every 10 s. *)
Theorem wait_gives_up_after_timeout (cs : list string) (timeout : Z)
  (w : World) :
  fst (wait_for_containers_startup cs timeout w) = false ->
  seconds timeout
  <= now (snd (wait_for_containers_startup cs timeout w)) - now w.
Proof.
  rewrite wait_for_containers_startup_eq. cbn [fst snd]. intros Hfalse.
  apply wait_loop_false_elapsed.
  pose proof (wait_fuel_enough cs timeout w) as Hsome.
  destruct (fst (wait_loop (wait_fuel timeout) cs (now w) timeout w))
    as [[|]|]; [discriminate | reflexivity | contradiction].
Qed.

(** X14: edge cases of the wait.  With a timeout that is not positive it
    returns [False] without polling any container, whatever their state.
    With a positive timeout and no container to wait for it returns
    [True] at once, without polling or sleeping; so
    [start_all_containers] of the empty list returns [True] and only
    sets the start time. *)
Theorem wait_edge_cases (cs : list string) (timeout : Z) (w : World) :
  (timeout <= 0 -> wait_for_containers_startup cs timeout w = (false, w)) /\
  (0 < timeout -> wait_for_containers_startup [] timeout w = (true, w)) /\
  start_all_containers [] w = (true, set_container_start_time (now w) w).
Proof.
  assert (Hempty : forall (t : Z) (v : World),
             0 < t -> wait_for_containers_startup [] t v = (true, v)).
  { intros t v Hpos. rewrite wait_for_containers_startup_eq.
    unfold wait_fuel. rewrite wait_loop_succ.
    destruct (Z.ltb_spec (now v - now v) (seconds t)) as [_|Hout];
      [reflexivity | unfold seconds in Hout; lia]. }
  split; [|split].
  - intros Hneg. rewrite wait_for_containers_startup_eq.
    unfold wait_fuel. rewrite wait_loop_succ.
    destruct (Z.ltb_spec (now w - now w) (seconds timeout)) as [Hin|_];
      [unfold seconds in Hin; lia | reflexivity].
  - apply Hempty.
  - rewrite start_all_containers_eq. cbn [start_each ret fst snd].
    apply Hempty. reflexivity.
Qed.

(** *** What a BACKUP does *)

Lemma iterate_succ (k : nat) (body : M unit) (w : World) :
  iterate (S k) body w = iterate k body (snd (body w)).
Proof. reflexivity. Qed.

Lemma wrapper_iteration_on_backup (w : World) :
  role w = BACKUP ->
  monitor_containers_wrapper_iteration w = time_sleep 10 w.
Proof.
  intros Hr. unfold monitor_containers_wrapper_iteration, bind, gets, ret.
  cbn [fst snd]. rewrite Hr. reflexivity.
Qed.

Lemma monitor_containers_iteration_on_backup (cs : list string) (w : World) :
  role w = BACKUP ->
  monitor_containers_iteration cs w = time_sleep 50 w.
Proof.
  intros Hr. unfold monitor_containers_iteration, bind, gets, ret.
  cbn [fst snd]. rewrite Hr. reflexivity.
Qed.

Lemma iterate_sleep (r : ServerRole) (k : nat) (secs : Z) (body : M unit)
  (w : World) :
  (forall v, role v = r -> body v = time_sleep secs v) ->
  role w = r ->
  snd (iterate k body w)
  = mkWorld r (container_start_time w) (container_down_times w)
      (last_heartbeat w) (now w + Z.of_nat k * seconds secs) (tick w)
      (trace w ++ repeat (Sleep secs) k).
Proof.
  intros Hbody. revert w. induction k as [|k IH]; intros w Hr.
  - cbn. rewrite Z.add_0_r, app_nil_r, <- Hr. destruct w; reflexivity.
  - rewrite iterate_succ, (Hbody w Hr), IH by exact Hr.
    cbn [time_sleep snd role container_start_time container_down_times
         last_heartbeat now tick trace].
    f_equal; [lia|]. rewrite <- app_assoc. reflexivity.
Qed.

(** X15: monitoring that begins in the BACKUP role is idle.  From a world
    whose role is BACKUP, any number of consecutive iterations of the
    monitoring loop of [main.py], and [monitor_containers] observed for
    any number of iterations (it also skips the initial start), only
    sleep: no external call is made, and role, down-time map, start time
    and heartbeat stamp stay as they were.  (An iteration that begins as
    PRIMARY and hands over in mid-cycle is not covered: it goes on
    checking the remaining containers, see C1.) *)
Theorem backup_monitoring_is_idle (cs : list string) (k : nat) (w : World) :
  role w = BACKUP ->
  snd (iterate k monitor_containers_wrapper_iteration w)
  = mkWorld BACKUP (container_start_time w) (container_down_times w)
      (last_heartbeat w) (now w + Z.of_nat k * seconds 10) (tick w)
      (trace w ++ repeat (Sleep 10) k) /\
  snd (monitor_containers cs k w)
  = mkWorld BACKUP (container_start_time w) (container_down_times w)
      (last_heartbeat w) (now w + Z.of_nat k * seconds 50) (tick w)
      (trace w ++ repeat (Sleep 50) k).
Proof.
  intros Hr. split.
  - apply (iterate_sleep BACKUP);
      [apply wrapper_iteration_on_backup | exact Hr].
  - unfold monitor_containers, bind, gets, ret. cbn [fst snd].
    rewrite Hr. cbn [ServerRole_eqb negb fst snd].
    apply (iterate_sleep BACKUP);
      [apply monitor_containers_iteration_on_backup | exact Hr].
Qed.

(** X16: when the initial start of [monitor_containers] fails on a
    PRIMARY, the function ends there: however long it is observed, no
    monitoring iteration runs, and the node is left PRIMARY. *)
Theorem monitor_containers_failed_start (cs : list string) (k : nat)
  (w : World) :
  role w = PRIMARY ->
  fst (start_all_containers cs w) = false ->
  monitor_containers cs k w = (tt, snd (start_all_containers cs w)) /\
  role (snd (monitor_containers cs k w)) = PRIMARY.
Proof.
  intros Hr Hfail.
  assert (Heq : monitor_containers cs k w
                = (tt, snd (start_all_containers cs w))).
  { unfold monitor_containers, bind, gets, ret. cbn [fst snd].
    rewrite Hr. cbn [ServerRole_eqb]. rewrite Hfail. reflexivity. }
  rewrite Heq. split; [reflexivity|]. cbn [snd].
  destruct (start_all_containers_role cs w) as (Hrole & _). congruence.
Qed.

(** *** The failover lock *)

Lemma initiate_failover_lock_events (w : World) :
  lock_events (snd (initiate_failover w))
  = lock_events w ++ [LockAcquire; LockRelease].
Proof.
  rewrite initiate_failover_eq.
  destruct (ServerRole_eqb (role w) BACKUP); cbn [snd].
  - apply (under_lock_lock_events (become_primary (containers config))).
    apply become_primary_lockless.
  - rewrite lock_release_lock_events, lock_acquire_lock_events,
      <- app_assoc. reflexivity.
Qed.

Lemma primary_failure_path_lock_events (w : World) :
  lock_events (snd (primary_failure_path w))
  = lock_events w ++ [LockAcquire; LockRelease].
Proof.
  change (snd (primary_failure_path w))
    with (snd (lock_release
                 (snd (stop_notify_become_backup (containers config)
                         (snd (lock_acquire w)))))).
  apply (under_lock_lock_events
           (stop_notify_become_backup (containers config))).
  apply stop_notify_become_backup_lockless.
Qed.

Lemma check_container_lock_events (n : string) (w : World) :
  lock_events (snd (check_container n w))
  = lock_events w
    ++ (if confirmed_down n w then [LockAcquire; LockRelease] else []).
Proof.
  rewrite check_container_eq. unfold confirmed_down. cbv zeta.
  pose proof (should_check_container_lockless n w) as H1.
  set (w1 := snd (should_check_container n w)) in *.
  pose proof (get_container_status_lockless n w1) as H2.
  set (w2 := snd (get_container_status n w1)) in *.
  pose proof (verify_container_health_lockless n w2) as H3.
  set (w3 := snd (verify_container_health n w2)) in *.
  unfold lockless in H1, H2, H3.
  destruct (fst (should_check_container n w)); cbn [andb negb snd];
    [|rewrite app_nil_r; exact H1].
  destruct (fst (get_container_status n w1)); cbn [andb negb snd];
    [rewrite app_nil_r; congruence|].
  destruct (fst (verify_container_health n w2)); cbn [andb negb snd];
    [rewrite app_nil_r; congruence|].
  rewrite primary_failure_path_lock_events. congruence.
Qed.

Lemma cycle_lock_events (cs : list string) (w : World) :
  lock_events (snd (for_each cs check_container w))
  = lock_events w
    ++ concat (repeat [LockAcquire; LockRelease] (confirmed_count cs w)).
Proof.
  revert w. induction cs as [|c rest IH]; intros w.
  - cbn. symmetry. apply app_nil_r.
  - rewrite for_each_cons, IH, check_container_lock_events.
    cbn [confirmed_count]. rewrite <- app_assoc. f_equal.
    destruct (confirmed_down c w); reflexivity.
Qed.

(** X17: the failover lock is taken and released in pairs, never nested
    and never left held.  [initiate_failover] and the primary-side failure
    path each add one acquire directly followed, among the lock events,
    by its release; an iteration of the monitoring loop adds one such
    pair per confirmed failure; an iteration of the staleness loop adds
    at most one pair, and an iteration of the sender loop none. *)
Theorem lock_taken_in_pairs (w : World) :
  lock_events (snd (initiate_failover w))
  = lock_events w ++ [LockAcquire; LockRelease] /\
  lock_events (snd (primary_failure_path w))
  = lock_events w ++ [LockAcquire; LockRelease] /\
  lock_events (snd (monitor_containers_wrapper_iteration w))
  = lock_events w
    ++ concat (repeat [LockAcquire; LockRelease]
                 (if ServerRole_eqb (role w) PRIMARY
                  then confirmed_count (containers config) w else 0%nat)) /\
  (exists k, (k <= 1)%nat /\
     lock_events (snd (check_heartbeat_iteration w))
     = lock_events w ++ concat (repeat [LockAcquire; LockRelease] k)) /\
  lock_events (snd (send_heartbeat_iteration w)) = lock_events w.
Proof.
  split; [apply initiate_failover_lock_events|].
  split; [apply primary_failure_path_lock_events|].
  split; [|split].
  - unfold monitor_containers_wrapper_iteration, bind, gets, ret.
    cbn [fst snd]. rewrite (time_sleep_lockless 10 _).
    destruct (ServerRole_eqb (role w) PRIMARY); cbn [snd].
    + apply cycle_lock_events.
    + cbn. symmetry. apply app_nil_r.
  - rewrite check_heartbeat_iteration_eq, (time_sleep_lockless _ _).
    destruct (_ && _ && _).
    + exists 1%nat. split; [lia|].
      rewrite initiate_failover_lock_events. reflexivity.
    + exists 0%nat. split; [lia|]. cbn. symmetry. apply app_nil_r.
  - rewrite send_heartbeat_iteration_eq, (time_sleep_lockless _ _).
    destruct (ServerRole_eqb (role w) PRIMARY); [|reflexivity].
    apply (external_lockless (HttpPost "/heartbeat")). reflexivity.
Qed.

(** *** The restart grace period in the monitoring loop *)

(** X18: a container seen stopped for the first time is given the restart
    grace period.  With a positive restart grace period, past the startup
    grace period, when the container has no down-time entry, is found by
    the existence check and is then found not running, the check of the
    monitoring loop makes just these two lookups, records the clock
    reading as down time, and makes no failover: no lock is taken and the
    role is unchanged. *)
Theorem first_sight_of_stopped_container (n : string) (w : World)
  (st status : string) :
  0 < restart_grace_period server_configs ->
  ~ in_startup_grace w ->
  container_down_times w !! n = None ->
  docker_get env (tick w) n = Ok st ->
  docker_get env (S (tick w)) n = Ok status ->
  String.eqb status "running" = false ->
  let w' := snd (check_container n w) in
  trace w' = trace w ++ [DockerGet n; DockerGet n] /\
  container_down_times w' !! n = Some (now w') /\
  lock_events w' = lock_events w /\
  role w' = role w.
Proof.
  intros Hgrace Hstart Hnone Hfound Hdown Hnot.
  assert (Hs : should_check_container n w = (true, snd (containers_get n w))).
  { unfold in_startup_grace in Hstart.
    unfold should_check_container, bind, time_time, gets, ret.
    cbn [fst snd].
    destruct (Z.ltb_spec (now w - container_start_time w)
                (seconds (startup_grace_period server_configs)));
      [contradiction|].
    change (fst (containers_get n w)) with (docker_get env (tick w) n).
    rewrite Hfound. reflexivity. }
  set (w1 := snd (containers_get n w)) in *.
  assert (Hrun : is_running (docker_get env (tick w1) n) = false).
  { change (tick w1) with (S (tick w)). rewrite Hdown. exact Hnot. }
  set (t2 := now w1 + Z.of_N (latency env (tick w1))).
  set (w2 := mkWorld (role w) (container_start_time w)
               (<[n := t2]> (container_down_times w))
               (last_heartbeat w) t2 (S (tick w1))
               (trace w ++ [DockerGet n; DockerGet n])).
  assert (Hg : get_container_status n w1 = (false, w2)).
  { rewrite (get_container_status_down n w1 Hrun). unfold record_down.
    change (container_down_times w1) with (container_down_times w).
    change (tick w1) with (S (tick w)). rewrite Hnone, Hdown.
    subst w2 t2 w1. cbn. rewrite <- app_assoc. reflexivity. }
  assert (Hv : verify_container_health n w2 = (true, w2)).
  { rewrite verify_container_health_eq.
    change (container_down_times w2)
      with (<[n := t2]> (container_down_times w)).
    change (now w2) with t2. rewrite lookup_insert_eq.
    destruct (Z.ltb_spec (t2 - t2)
                (seconds (restart_grace_period server_configs)))
      as [_|Hge]; [reflexivity | unfold seconds in Hge; lia]. }
  cbv zeta. rewrite check_container_eq. cbv zeta.
  rewrite Hs. cbn [fst snd]. rewrite Hg. cbn [fst snd].
  rewrite Hv. cbn [fst snd].
  split; [reflexivity|]. split; [apply lookup_insert_eq|].
  split; [|reflexivity].
  unfold lock_events. cbn [w2 trace]. rewrite List.filter_app. cbn.
  apply app_nil_r.
Qed.

(** X19: on a successful hand-over every owned container is stopped
    twice.  When the stop succeeds, the peer answers 200 and the stop run
    by [become_backup] succeeds too, the failure path takes the lock,
    looks up and stops each container in order, posts to the peer, looks
    up and stops each container again, and releases the lock; the node
    ends BACKUP. *)
Theorem successful_handover_stops_twice (w : World) :
  let cs := containers config in
  let stopped := stop_all_containers cs (snd (lock_acquire w)) in
  let notified := notify_other_server (snd stopped) in
  fst stopped = true ->
  fst notified = true ->
  fst (stop_all_containers cs (set_role BACKUP (snd notified))) = true ->
  trace (snd (primary_failure_path w))
  = trace w ++ [LockAcquire] ++ stop_events cs
    ++ [HttpPost "/become_primary"] ++ stop_events cs ++ [LockRelease] /\
  role (snd (primary_failure_path w)) = BACKUP.
Proof.
  cbv zeta. intros Hstop Hnotify Hagain.
  set (cs := containers config) in *.
  set (w0 := snd (lock_acquire w)) in *.
  set (w1 := snd (stop_all_containers cs w0)) in *.
  set (w2 := snd (notify_other_server w1)) in *.
  assert (Heq : snd (primary_failure_path w)
                = snd (lock_release
                         (snd (stop_all_containers cs (set_role BACKUP w2))))).
  { unfold primary_failure_path, bind. cbv zeta.
    rewrite stop_notify_become_backup_eq. cbv zeta. cbn [snd].
    fold cs w0. rewrite Hstop. fold w1. rewrite Hnotify. fold w2.
    rewrite become_backup_eq. reflexivity. }
  rewrite Heq. split.
  - assert (H1 : trace w1 = trace w0 ++ stop_events cs).
    { subst w1. rewrite stop_all_containers_eq in Hstop |- *.
      cbn [fst snd] in *. apply (stop_each_ok_iff cs w0).
      destruct (fst (stop_each cs w0)) as [[]|e];
        [reflexivity | discriminate]. }
    assert (H2 : trace w2 = trace w1 ++ [HttpPost "/become_primary"]).
    { subst w2. unfold notify_other_server, requests_post, external, bind.
      cbv zeta. cbn [fst snd].
      destruct (http_post env (tick w1) "/become_primary"); reflexivity. }
    assert (H3 : trace (snd (stop_all_containers cs (set_role BACKUP w2)))
                 = trace w2 ++ stop_events cs).
    { rewrite stop_all_containers_eq in Hagain |- *. cbn [fst snd] in *.
      change (trace w2) with (trace (set_role BACKUP w2)).
      apply (stop_each_ok_iff cs (set_role BACKUP w2)).
      destruct (fst (stop_each cs (set_role BACKUP w2))) as [[]|e];
        [reflexivity | discriminate]. }
    unfold lock_release, modify. cbn [snd trace].
    rewrite H3, H2, H1. subst w0. cbn [lock_acquire modify snd trace].
    rewrite <- !app_assoc. reflexivity.
  - change (role (snd (lock_release ?x))) with (role x).
    rewrite (fr_role _ _ (stop_all_containers_frame cs (set_role BACKUP w2))).
    reflexivity.
Qed.

(** *** More on the loops *)

Lemma iterate_keeps (R : World -> World -> Prop) (k : nat) (body : M unit) :
  (forall w, R w w) ->
  (forall w1 w2 w3, R w1 w2 -> R w2 w3 -> R w1 w3) ->
  keeps R body -> keeps R (iterate k body).
Proof.
  intros Hrefl Htrans Hbody.
  induction k as [|k IH]; cbn [iterate].
  - apply (keeps_ret R Hrefl).
  - apply (keeps_bind R Htrans); [exact Hbody | intros _; exact IH].
Qed.

Lemma monitor_loop_lockless (all cs : list string) :
  keeps lockless
    (for_each cs (fun container_name =>
       do healthy <- verify_container_health container_name;
       if negb healthy then stop_notify_become_backup all else ret tt)).
Proof. induction cs as [|c rest IH]; cbn [for_each]; lockless_auto. Qed.

Lemma monitor_containers_iteration_lockless (cs : list string) :
  keeps lockless (monitor_containers_iteration cs).
Proof.
  pose proof (monitor_loop_lockless cs cs) as Hloop.
  unfold monitor_containers_iteration. lockless_auto.
Qed.

(** X20: [monitor_containers] never takes the failover lock: neither its
    initial start nor any number of iterations of its loop, failure paths
    included, adds a lock event.  Its role changes are not serialised with
    [initiate_failover] or the [/become_primary] endpoint. *)
Theorem monitor_containers_never_locks (cs : list string) (k : nat)
  (w : World) :
  lock_events (snd (monitor_containers cs k w)) = lock_events w.
Proof.
  assert (Hk : keeps lockless (iterate k (monitor_containers_iteration cs))).
  { apply iterate_keeps;
      [apply lockless_refl | apply lockless_trans
       | apply monitor_containers_iteration_lockless]. }
  assert (H : keeps lockless (monitor_containers cs k)).
  { unfold monitor_containers. lockless_auto. }
  apply H.
Qed.

Lemma monitor_containers_wrapper_iteration_steady (w : World) :
  steady w (snd (monitor_containers_wrapper_iteration w)).
Proof.
  unfold monitor_containers_wrapper_iteration, bind, gets, ret.
  cbn [fst snd].
  eapply steady_trans;
    [|apply frame_steady, (time_sleep_frame 10); cbv; discriminate].
  destruct (ServerRole_eqb (role w) PRIMARY); cbn [snd];
    [apply cycle_steady | apply steady_refl].
Qed.

(** X21: the monitoring loop of [main.py] never restarts the startup
    grace period.  Any number of its iterations leaves
    [container_start_time] and the heartbeat stamp as they were and does
    not turn the clock back; so once the startup grace period is over it
    stays over, until [become_primary] is run. *)
Theorem monitoring_keeps_start_time (k : nat) (w : World) :
  let w' := snd (iterate k monitor_containers_wrapper_iteration w) in
  container_start_time w' = container_start_time w /\
  last_heartbeat w' = last_heartbeat w /\
  now w <= now w' /\
  (~ in_startup_grace w -> ~ in_startup_grace w').
Proof.
  cbv zeta.
  assert (Hk : keeps steady (iterate k monitor_containers_wrapper_iteration)).
  { apply iterate_keeps;
      [apply steady_refl | apply steady_trans
       | exact monitor_containers_wrapper_iteration_steady]. }
  pose proof (Hk w) as Hst. destruct Hst as [Hs Hh Hn Ht].
  split; [exact Hs|]. split; [exact Hh|]. split; [exact Hn|].
  apply steady_past_grace. apply Hk.
Qed.

Lemma check_heartbeat_iteration_on_primary (w : World) :
  role w = PRIMARY ->
  check_heartbeat_iteration w
  = time_sleep (check_heartbeat_interval server_configs) w.
Proof.
  intros Hr. rewrite check_heartbeat_iteration_eq, Hr. reflexivity.
Qed.

Lemma send_heartbeat_iteration_on_backup (w : World) :
  role w = BACKUP ->
  send_heartbeat_iteration w
  = time_sleep (heartbeat_interval server_configs) w.
Proof.
  intros Hr. rewrite send_heartbeat_iteration_eq, Hr. reflexivity.
Qed.

(** X22: the heartbeat loops of the role that is not theirs are idle.
    However many iterations run, and however old the heartbeat stamp is,
    the staleness loop of a PRIMARY only sleeps (it never starts a
    failover), and the sender loop of a BACKUP only sleeps (it never
    posts a heartbeat). *)
Theorem heartbeat_loops_idle (k : nat) (w : World) :
  (role w = PRIMARY ->
   snd (iterate k check_heartbeat_iteration w)
   = mkWorld PRIMARY (container_start_time w) (container_down_times w)
       (last_heartbeat w)
       (now w + Z.of_nat k * seconds (check_heartbeat_interval server_configs))
       (tick w)
       (trace w ++ repeat (Sleep (check_heartbeat_interval server_configs)) k))
  /\
  (role w = BACKUP ->
   snd (iterate k send_heartbeat_iteration w)
   = mkWorld BACKUP (container_start_time w) (container_down_times w)
       (last_heartbeat w)
       (now w + Z.of_nat k * seconds (heartbeat_interval server_configs))
       (tick w)
       (trace w ++ repeat (Sleep (heartbeat_interval server_configs)) k)).
Proof.
  split; intros Hr.
  - apply (iterate_sleep PRIMARY);
      [apply check_heartbeat_iteration_on_primary | exact Hr].
  - apply (iterate_sleep BACKUP);
      [apply send_heartbeat_iteration_on_backup | exact Hr].
Qed.

(** X23: a pass of the wait over the containers stops at the first one
    that is not running.  Polling a list is polling its first part and,
    only when all of it was running, its second part; when a container of
    the first part is not running, the containers after it are not polled
    in that pass, so their down-time entries are neither recorded nor
    cleared by it. *)
Theorem all_running_app (l1 l2 : list string) (w : World) :
  all_running (l1 ++ l2) w =
  if fst (all_running l1 w)
  then all_running l2 (snd (all_running l1 w))
  else all_running l1 w.
Proof.
  revert w. induction l1 as [|c rest IH]; intros w.
  - reflexivity.
  - cbn [app]. rewrite !all_running_cons.
    destruct (is_running (docker_get env (tick w) c)); [apply IH|].
    reflexivity.
Qed.

End Agent.

(** ** Instances *)

(** Witness of C6 at the example of the specification: grace period 30 s,
    container down since 10 s. *)
Lemma verify_within_restart_grace_witness :
  container_down_times world_down_10s !! container_1 = Some (epoch - 10000) /\
  now world_down_10s - (epoch - 10000)
  < seconds (restart_grace_period GENERAL_CONFIG) /\
  verify_container_health env_exited GENERAL_CONFIG container_1 world_down_10s
  = (true, world_down_10s).
Proof.
  split; [reflexivity|]. split; [reflexivity|].
  apply (verify_within_restart_grace env_exited GENERAL_CONFIG container_1
           world_down_10s (epoch - 10000)); reflexivity.
Defined.

(** Witness of C7: the container tracked as down is seen running, then
    exited. *)
Lemma down_time_round_trip_witness :
  container_down_times world_down_10s !! container_1 = Some (epoch - 10000) /\
  docker_get env_up_then_down (tick world_down_10s) container_1
  = Ok "running"%string /\
  fst (get_container_status env_up_then_down container_1 world_down_10s)
  = true /\
  container_down_times
    (snd (get_container_status env_up_then_down container_1 world_down_10s))
  !! container_1 = None.
Proof.
  split; [reflexivity|]. split; [reflexivity|].
  destruct (down_time_round_trip env_up_then_down container_1 world_down_10s
              (epoch - 10000) eq_refl eq_refl) as (H1 & H2 & _).
  split; [exact H1 | exact H2].
Defined.

(** C2: the code at the failing input.  No container is found: each of
    the three lookups raises [NotFound].  The down-time map has no entry
    for the container before the call and none after the three polls, so
    no down-since was ever recorded.  The final comparison reads the map
    all the same, gets the default 0 and stores it, and
    [verify_container_health] returns [False] 10 s after the call, with a
    restart grace period of 30 s. *)
Lemma verify_false_without_down_entry :
  container_down_times fresh_primary !! container_1 = None /\
  docker_get env_not_found 0 container_1 = Raise NotFound /\
  docker_get env_not_found 1 container_1 = Raise NotFound /\
  docker_get env_not_found 2 container_1 = Raise NotFound /\
  container_down_times
    (snd (poll_loop env_not_found container_1 (range consecutive_checks)
            fresh_primary)) !! container_1 = None /\
  fst (verify_container_health env_not_found GENERAL_CONFIG container_1
         fresh_primary) = false /\
  now (snd (verify_container_health env_not_found GENERAL_CONFIG container_1
              fresh_primary)) - now fresh_primary = seconds 10 /\
  seconds 10 < seconds (restart_grace_period GENERAL_CONFIG) /\
  container_down_times
    (snd (verify_container_health env_not_found GENERAL_CONFIG container_1
            fresh_primary)) !! container_1 = Some 0.
Proof. vm_compute. repeat split; reflexivity. Qed.

(** Witness of C9, amended. *)
Lemma verify_untracked_not_found_witness :
  container_down_times fresh_primary !! container_1 = None /\
  docker_get env_not_found (tick fresh_primary) container_1 = Raise NotFound /\
  seconds (restart_grace_period GENERAL_CONFIG) <= now fresh_primary /\
  fst (verify_container_health env_not_found GENERAL_CONFIG container_1
         fresh_primary) = false /\
  container_down_times
    (snd (verify_container_health env_not_found GENERAL_CONFIG container_1
            fresh_primary))
  = <[container_1 := 0]> (container_down_times fresh_primary).
Proof.
  assert (Hclock : seconds (restart_grace_period GENERAL_CONFIG)
                   <= now fresh_primary) by (vm_compute; discriminate).
  split; [reflexivity|]. split; [reflexivity|]. split; [exact Hclock|].
  destruct (verify_untracked_not_found env_not_found GENERAL_CONFIG
              container_1 fresh_primary NotFound NotFound NotFound
              eq_refl eq_refl eq_refl eq_refl Hclock) as (H1 & _ & H3).
  split; [exact H1 | exact H3].
Defined.

(** Counterexample to C9 as stated: the container has no down-time entry
    and the three polls report it not running (it is found, exited); the
    first poll records the down time, the final comparison reads that
    stamp, not 0, and [verify_container_health] returns [True]. *)
Lemma verify_untracked_exited_returns_true :
  container_down_times fresh_primary !! container_1 = None /\
  is_running (docker_get env_exited 0 container_1) = false /\
  is_running (docker_get env_exited 1 container_1) = false /\
  is_running (docker_get env_exited 2 container_1) = false /\
  fst (verify_container_health env_exited GENERAL_CONFIG container_1
         fresh_primary) = true /\
  container_down_times
    (snd (verify_container_health env_exited GENERAL_CONFIG container_1
            fresh_primary)) !! container_1 = Some epoch.
Proof. vm_compute. repeat split; reflexivity. Qed.

(** Witness of C8: a backup whose last heartbeat is 21 s old, with the
    timeout of 20 s. *)
Lemma check_heartbeat_calls_failover_witness :
  0 <= last_heartbeat world_stale_backup /\
  heartbeat_stale GENERAL_CONFIG world_stale_backup /\
  acquisitions
    (snd (check_heartbeat_iteration env_running GENERAL_CONFIG SERVER2_CONFIG
            world_stale_backup))
  = S (acquisitions world_stale_backup).
Proof.
  assert (Hnonneg : 0 <= last_heartbeat world_stale_backup)
    by (vm_compute; discriminate).
  assert (Hstale : heartbeat_stale GENERAL_CONFIG world_stale_backup).
  { split; [reflexivity|]. split; [vm_compute; discriminate | reflexivity]. }
  split; [exact Hnonneg|]. split; [exact Hstale|].
  destruct (check_heartbeat_calls_failover env_running GENERAL_CONFIG
              SERVER2_CONFIG world_stale_backup Hnonneg) as ([_ Hcall] & _).
  exact (Hcall Hstale).
Defined.


(** Witness of C10: the containers are started but never come up; the
    wait times out, [start_all_containers] returns [False], and the start
    time is the clock reading taken after the start calls. *)
Lemma start_all_restarts_startup_grace_witness :
  fst (start_each env_exited (containers SERVER1_CONFIG) fresh_primary)
  = Ok tt /\
  fst (start_all_containers env_exited (containers SERVER1_CONFIG)
         fresh_primary) = false /\
  container_start_time
    (snd (start_all_containers env_exited (containers SERVER1_CONFIG)
            fresh_primary))
  = now (snd (start_each env_exited (containers SERVER1_CONFIG)
                fresh_primary)).
Proof.
  split; [reflexivity|]. split; [vm_compute; reflexivity|].
  destruct (start_all_restarts_startup_grace env_exited GENERAL_CONFIG
              SERVER1_CONFIG (containers SERVER1_CONFIG) fresh_primary
              eq_refl) as (H & _).
  exact H.
Defined.

(** Counterexample to C1 as stated: both owned containers have been down
    for 60 s.  The cycle confirms the failure of [container-1], stops the
    containers, notifies the peer and becomes BACKUP; it then goes on to
    [container-2], confirms its failure and runs the failure path a
    second time: the lock is taken twice and the peer is notified twice
    in one cycle.  An iteration of [monitor_containers] does the same. *)
Lemma cycle_continues_after_confirmed_failure :
  role world_both_down = PRIMARY /\
  acquisitions
    (snd (monitor_containers_wrapper_iteration env_exited GENERAL_CONFIG
            SERVER1_CONFIG world_both_down)) = 2%nat /\
  trace
    (snd (monitor_containers_wrapper_iteration env_exited GENERAL_CONFIG
            SERVER1_CONFIG world_both_down))
  = [DockerGet container_1; DockerGet container_1;
     DockerGet container_1; Sleep 5; DockerGet container_1;
     Sleep 5; DockerGet container_1;
     LockAcquire;
     DockerGet container_1; DockerStop container_1;
     DockerGet container_2; DockerStop container_2;
     HttpPost "/become_primary";
     DockerGet container_1; DockerStop container_1;
     DockerGet container_2; DockerStop container_2;
     LockRelease;
     DockerGet container_2; DockerGet container_2;
     DockerGet container_2; Sleep 5; DockerGet container_2;
     Sleep 5; DockerGet container_2;
     LockAcquire;
     DockerGet container_1; DockerStop container_1;
     DockerGet container_2; DockerStop container_2;
     HttpPost "/become_primary";
     DockerGet container_1; DockerStop container_1;
     DockerGet container_2; DockerStop container_2;
     LockRelease;
     Sleep 10] /\
  trace
    (snd (monitor_containers_iteration env_exited GENERAL_CONFIG
            (containers SERVER1_CONFIG) world_both_down))
  = [DockerGet container_1; Sleep 5; DockerGet container_1;
     Sleep 5; DockerGet container_1;
     DockerGet container_1; DockerStop container_1;
     DockerGet container_2; DockerStop container_2;
     HttpPost "/become_primary";
     DockerGet container_1; DockerStop container_1;
     DockerGet container_2; DockerStop container_2;
     DockerGet container_2; Sleep 5; DockerGet container_2;
     Sleep 5; DockerGet container_2;
     DockerGet container_1; DockerStop container_1;
     DockerGet container_2; DockerStop container_2;
     HttpPost "/become_primary";
     DockerGet container_1; DockerStop container_1;
     DockerGet container_2; DockerStop container_2;
     Sleep 50].
Proof. vm_compute. repeat split; reflexivity. Qed.

(** Witness of C1, amended, on the same cycle. *)
Lemma monitoring_cycle_checks_every_container_witness :
  role world_both_down = PRIMARY /\
  acquisitions
    (snd (monitor_containers_wrapper_iteration env_exited GENERAL_CONFIG
            SERVER1_CONFIG world_both_down))
  = (acquisitions world_both_down
     + confirmed_count env_exited GENERAL_CONFIG SERVER1_CONFIG
         (containers SERVER1_CONFIG) world_both_down)%nat.
Proof.
  split; [reflexivity|].
  destruct (monitoring_cycle_checks_every_container env_exited GENERAL_CONFIG
              SERVER1_CONFIG world_both_down eq_refl) as (H & _).
  exact H.
Defined.

(** ** Runs on concrete inputs *)

(** A backup whose peer went silent takes over: the containers start and
    are seen running in the first round of the wait. *)
Example failover_of_stale_backup :
  check_heartbeat_iteration env_running GENERAL_CONFIG SERVER2_CONFIG
    world_stale_backup
  = (tt,
     mkWorld PRIMARY (epoch + 4) ∅ (epoch - 21000) (epoch + 5006) 6%nat
       [LockAcquire;
        DockerGet container_1; DockerStart container_1;
        DockerGet container_2; DockerStart container_2;
        DockerGet container_1; DockerGet container_2;
        LockRelease; Sleep 5]).
Proof. vm_compute. reflexivity. Qed.

(** [become_primary] on a node whose containers cannot be found returns
    [False] after the first failed lookup and leaves the role PRIMARY. *)
Example become_primary_not_found :
  become_primary env_not_found (containers SERVER2_CONFIG)
    (initial_world BACKUP epoch)
  = (false, mkWorld PRIMARY 0 ∅ 0 epoch 1%nat [DockerGet container_1]).
Proof. vm_compute. reflexivity. Qed.

(** [initiate_failover] on a PRIMARY only takes and releases the lock. *)
Example initiate_failover_on_primary :
  initiate_failover env_running SERVER1_CONFIG fresh_primary
  = (false, mkWorld PRIMARY 0 ∅ 0 epoch 0%nat [LockAcquire; LockRelease]).
Proof. vm_compute. reflexivity. Qed.

(** The failure path when the peer cannot be reached as it should: the
    containers are stopped, the notification is answered 500, and the
    node stays PRIMARY. *)
Example failure_path_notification_refused :
  primary_failure_path
    {| docker_get := fun _ _ => Ok "exited"%string;
       docker_start := fun _ _ => Ok tt;
       docker_stop := fun _ _ => Ok tt;
       http_post := fun _ _ => Ok 500;
       latency := fun _ => 0%N |}
    SERVER1_CONFIG fresh_primary
  = (tt,
     mkWorld PRIMARY 0 ∅ 0 epoch 5%nat
       [LockAcquire;
        DockerGet container_1; DockerStop container_1;
        DockerGet container_2; DockerStop container_2;
        HttpPost "/become_primary"; LockRelease]).
Proof. vm_compute. reflexivity. Qed.

(** ** The sender loop *)

(** X8: the sender loop does not react to the delivery of its
    heartbeats.  An iteration on a BACKUP sends nothing and only sleeps;
    an iteration on a PRIMARY posts one heartbeat and sleeps; in both
    cases role, down-time map and heartbeat stamp are unchanged, and the
    world after the iteration is the same whatever the peer answers or
    raises (for two environments whose call takes the same time). *)
Theorem send_heartbeat_ignores_delivery (env env' : Env)
  (cfg : GeneralConfig) (w : World) :
  (latency env' (tick w) = latency env (tick w) ->
   send_heartbeat_iteration env' cfg w = send_heartbeat_iteration env cfg w) /\
  (role w = BACKUP ->
   send_heartbeat_iteration env cfg w
   = time_sleep (heartbeat_interval cfg) w) /\
  (role w = PRIMARY ->
   trace (snd (send_heartbeat_iteration env cfg w))
   = trace w ++ [HttpPost "/heartbeat"; Sleep (heartbeat_interval cfg)]) /\
  role (snd (send_heartbeat_iteration env cfg w)) = role w /\
  container_down_times (snd (send_heartbeat_iteration env cfg w))
  = container_down_times w /\
  last_heartbeat (snd (send_heartbeat_iteration env cfg w))
  = last_heartbeat w.
Proof.
  rewrite !send_heartbeat_iteration_eq.
  split; [|split; [|split]].
  - intros Hlat. destruct (ServerRole_eqb (role w) PRIMARY); [|reflexivity].
    unfold requests_post, external. cbn [snd]. rewrite Hlat. reflexivity.
  - intros Hr. rewrite Hr. reflexivity.
  - intros Hr. rewrite Hr. cbn. rewrite <- app_assoc. reflexivity.
  - destruct (ServerRole_eqb (role w) PRIMARY); repeat split; reflexivity.
Qed.

(** ** Instances of the further properties *)

Lemma start_all_containers_failed_start_witness :
  fst (start_each env_not_found [container_1] fresh_primary)
  = Raise NotFound /\
  start_all_containers env_not_found ([container_1] ++ [container_2])
    fresh_primary
  = (false, snd (start_each env_not_found [container_1] fresh_primary)).
Proof.
  split; [reflexivity|].
  destruct (start_all_containers_failed_start env_not_found
              [container_1] [container_2] fresh_primary NotFound eq_refl)
    as (H & _).
  exact H.
Defined.

Lemma status_checks_touch_own_entry_witness :
  container_2 <> container_1 /\
  container_down_times
    (snd (check_container env_exited GENERAL_CONFIG SERVER1_CONFIG
            container_1 world_both_down)) !! container_2
  = container_down_times world_both_down !! container_2.
Proof.
  assert (Hne : container_2 <> container_1) by discriminate.
  split; [exact Hne|].
  destruct (status_checks_touch_own_entry env_exited GENERAL_CONFIG
              SERVER1_CONFIG container_1 container_2 world_both_down Hne)
    as (_ & _ & H).
  exact H.
Defined.

Lemma down_times_of_owned_containers_only_witness :
  ~ In "container-3"%string (containers SERVER1_CONFIG) /\
  container_down_times
    (snd (monitor_containers_wrapper_iteration env_exited GENERAL_CONFIG
            SERVER1_CONFIG world_both_down)) !! "container-3"%string
  = container_down_times world_both_down !! "container-3"%string.
Proof.
  assert (Hnot : ~ In "container-3"%string (containers SERVER1_CONFIG)).
  { intros [H|[H|[]]]; discriminate H. }
  split; [exact Hnot|].
  destruct (down_times_of_owned_containers_only env_exited GENERAL_CONFIG
              SERVER1_CONFIG "container-3"%string world_both_down ∅ Hnot)
    as (H & _).
  exact H.
Defined.

Lemma stamps_stay_in_the_past_witness :
  stamps_past world_down_10s /\
  stamps_past
    (snd (monitor_containers_wrapper_iteration env_exited GENERAL_CONFIG
            SERVER1_CONFIG world_down_10s)).
Proof.
  assert (Hp : stamps_past world_down_10s).
  { split; [vm_compute; discriminate|].
    intros n t. unfold world_down_10s. cbn [container_down_times now].
    rewrite lookup_singleton. case_decide; [|discriminate].
    intros [= <-]. vm_compute. discriminate. }
  split; [exact Hp|].
  destruct (stamps_stay_in_the_past env_exited GENERAL_CONFIG SERVER1_CONFIG
              container_1 world_down_10s ∅ Hp) as (_ & _ & H & _).
  exact H.
Defined.

Lemma wait_gives_up_after_timeout_witness :
  fst (wait_for_containers_startup env_exited (containers SERVER1_CONFIG)
         300 fresh_primary) = false /\
  seconds 300
  <= now (snd (wait_for_containers_startup env_exited
                 (containers SERVER1_CONFIG) 300 fresh_primary))
     - now fresh_primary.
Proof.
  assert (Hf : fst (wait_for_containers_startup env_exited
                      (containers SERVER1_CONFIG) 300 fresh_primary) = false)
    by (vm_compute; reflexivity).
  split; [exact Hf|].
  apply (wait_gives_up_after_timeout env_exited (containers SERVER1_CONFIG)
           300 fresh_primary Hf).
Defined.

Lemma backup_monitoring_is_idle_witness :
  role world_stale_backup = BACKUP /\
  snd (iterate 3
         (monitor_containers_wrapper_iteration env_exited GENERAL_CONFIG
            SERVER2_CONFIG) world_stale_backup)
  = mkWorld BACKUP (container_start_time world_stale_backup)
      (container_down_times world_stale_backup)
      (last_heartbeat world_stale_backup)
      (now world_stale_backup + Z.of_nat 3 * seconds 10)
      (tick world_stale_backup)
      (trace world_stale_backup ++ repeat (Sleep 10) 3).
Proof.
  split; [reflexivity|].
  destruct (backup_monitoring_is_idle env_exited GENERAL_CONFIG
              SERVER2_CONFIG (containers SERVER2_CONFIG) 3
              world_stale_backup eq_refl) as (H & _).
  exact H.
Defined.

Lemma monitor_containers_failed_start_witness :
  role fresh_primary = PRIMARY /\
  fst (start_all_containers env_not_found (containers SERVER1_CONFIG)
         fresh_primary) = false /\
  monitor_containers env_not_found GENERAL_CONFIG
    (containers SERVER1_CONFIG) 2 fresh_primary
  = (tt, snd (start_all_containers env_not_found (containers SERVER1_CONFIG)
                fresh_primary)).
Proof.
  split; [reflexivity|]. split; [reflexivity|].
  destruct (monitor_containers_failed_start env_not_found GENERAL_CONFIG
              (containers SERVER1_CONFIG) 2 fresh_primary eq_refl eq_refl)
    as (H & _).
  exact H.
Defined.

Lemma first_sight_of_stopped_container_witness :
  0 < restart_grace_period GENERAL_CONFIG /\
  ~ in_startup_grace GENERAL_CONFIG fresh_primary /\
  container_down_times fresh_primary !! container_1 = None /\
  docker_get env_exited (tick fresh_primary) container_1
  = Ok "exited"%string /\
  trace (snd (check_container env_exited GENERAL_CONFIG SERVER1_CONFIG
                container_1 fresh_primary))
  = trace fresh_primary ++ [DockerGet container_1; DockerGet container_1] /\
  lock_events (snd (check_container env_exited GENERAL_CONFIG SERVER1_CONFIG
                      container_1 fresh_primary))
  = lock_events fresh_primary.
Proof.
  assert (Hg : 0 < restart_grace_period GENERAL_CONFIG) by reflexivity.
  assert (Hs : ~ in_startup_grace GENERAL_CONFIG fresh_primary).
  { vm_compute. discriminate. }
  split; [exact Hg|]. split; [exact Hs|].
  split; [reflexivity|]. split; [reflexivity|].
  destruct (first_sight_of_stopped_container env_exited GENERAL_CONFIG
              SERVER1_CONFIG container_1 fresh_primary
              "exited"%string "exited"%string
              Hg Hs eq_refl eq_refl eq_refl eq_refl) as (H1 & _ & H3 & _).
  split; [exact H1 | exact H3].
Defined.

Lemma successful_handover_stops_twice_witness :
  fst (stop_all_containers env_exited (containers SERVER1_CONFIG)
         (snd (lock_acquire fresh_primary))) = true /\
  trace (snd (primary_failure_path env_exited SERVER1_CONFIG fresh_primary))
  = trace fresh_primary ++ [LockAcquire]
    ++ stop_events (containers SERVER1_CONFIG)
    ++ [HttpPost "/become_primary"]
    ++ stop_events (containers SERVER1_CONFIG) ++ [LockRelease] /\
  role (snd (primary_failure_path env_exited SERVER1_CONFIG fresh_primary))
  = BACKUP.
Proof.
  split; [reflexivity|].
  apply (successful_handover_stops_twice env_exited SERVER1_CONFIG
           fresh_primary eq_refl eq_refl eq_refl).
Defined.
